(** * Geekdemy cart: the billing engine of [geektrust.js]

    A shallow embedding of the cart, its pricing strategies and the command
    handlers, followed by the properties of the bill.

    Modelling choices.
    - A JavaScript number is an IEEE 754 binary64 value: Rocq's primitive
      [float], with the same [+], [-], [*], [<], [>=], [NaN] and [Infinity].
    - A JavaScript string is a [string]; characters are 8-bit code units and
      case conversion acts on the ASCII letters.
    - A method of the cart reads and writes the fields of [this] and may
      throw: it is a function from the cart to a [completion] carrying the
      returned value and the cart it leaves behind.
    - The global [count] lives next to the cart in a [Process] record.
    - [printBill] returns the six printed amounts before [toFixed(2)]. *)

From Stdlib Require Import List String Ascii Bool ZArith Lia.
From Stdlib Require Import Floats.PrimFloat Floats.SpecFloat Floats.FloatOps.
From Stdlib Require Import Floats.FloatAxioms.
Import ListNotations.

#[local] Set Warnings "-inexact-float".
#[local] Open Scope bool_scope.
#[local] Open Scope string_scope.

(* ===================================================================== *)
(** ** Built-ins of the language used by the program *)
(* ===================================================================== *)

Module JS.

(** What a call leaves behind: a value, or a thrown [TypeError]. *)
Inductive exn : Type := TypeError.

Inductive completion (A : Type) : Type :=
| Normal (a : A)
| Throw (e : exn).
Arguments Normal {A} a.
Arguments Throw {A} e.

Definition bind {A B : Type} (c : completion A) (k : A -> completion B)
  : completion B :=
  match c with
  | Normal a => k a
  | Throw e => Throw e
  end.

Definition fmap {A B : Type} (f : A -> B) (c : completion A) : completion B :=
  bind c (fun a => Normal (f a)).

(** The value held by a field that is meant to hold an instance of a class:
    [null], an instance, or an object that is not an instance and has none
    of the class's methods (a member inherited from [Object.prototype]). *)
Inductive ref (A : Type) : Type :=
| Null
| Obj (a : A)
| Inherited.
Arguments Null {A}.
Arguments Obj {A} a.
Arguments Inherited {A}.

(** [r.m(...)]: calling a method on the value of such a field. *)
Definition call {A B : Type} (r : ref A) (m : A -> B) : completion B :=
  match r with
  | Obj a => Normal (m a)
  | Null => Throw TypeError
  | Inherited => Throw TypeError
  end.

(** [if (r)]: truthiness of such a value. *)
Definition truthy {A : Type} (r : ref A) : bool :=
  match r with
  | Null => false
  | _ => true
  end.

(** *** Numbers *)

Definition number : Type := float.

(** [a >= b], [a > b] and [a < b] on numbers. *)
Definition ge (a b : number) : bool := (b <=? a)%float.
Definition gt (a b : number) : bool := (b <? a)%float.
Definition lt (a b : number) : bool := (a <? b)%float.

(** [Math.min(a, b)]: [NaN] if either is, and [-0] below [+0]. *)
Definition Math_min (a b : number) : number :=
  if is_nan a || is_nan b then nan
  else if (a <? b)%float then a
  else if (b <? a)%float then b
  else if get_sign a then a else b.

(** The number nearest to an integer (ties to even); [neg] is the sign
    given to zero. *)
Definition of_Z (neg : bool) (z : Z) : number :=
  SF2Prim (binary_normalize prec emax z 0 neg).

(** *** Strings *)

Definition is_upper (c : ascii) : bool :=
  let n := N_of_ascii c in (65 <=? n)%N && (n <=? 90)%N.
Definition is_lower (c : ascii) : bool :=
  let n := N_of_ascii c in (97 <=? n)%N && (n <=? 122)%N.

Definition lower_char (c : ascii) : ascii :=
  if is_upper c then ascii_of_N (N_of_ascii c + 32) else c.
Definition upper_char (c : ascii) : ascii :=
  if is_lower c then ascii_of_N (N_of_ascii c - 32) else c.

Fixpoint map_string (f : ascii -> ascii) (s : string) : string :=
  match s with
  | EmptyString => EmptyString
  | String c r => String (f c) (map_string f r)
  end.

Definition toLowerCase : string -> string := map_string lower_char.
Definition toUpperCase : string -> string := map_string upper_char.

(** [s.split(sep)] for a one-character separator: never empty. *)
Fixpoint split (sep : ascii) (s : string) : list string :=
  match s with
  | EmptyString => [EmptyString]
  | String c r =>
      if Ascii.eqb c sep then EmptyString :: split sep r
      else match split sep r with
           | w :: ws => String c w :: ws
           | [] => [String c EmptyString]
           end
  end.

(** [s.replace(/c/g, '')]: every occurrence of one character removed. *)
Fixpoint remove_char (x : ascii) (s : string) : string :=
  match s with
  | EmptyString => EmptyString
  | String c r =>
      if Ascii.eqb c x then remove_char x r else String c (remove_char x r)
  end.

(** *** [parseInt(s)] with no radix *)

Definition is_white (c : ascii) : bool :=
  let n := N_of_ascii c in
  existsb (N.eqb n) [9; 10; 11; 12; 13; 32; 160]%N.

Fixpoint skip_white (s : string) : string :=
  match s with
  | String c r => if is_white c then skip_white r else s
  | EmptyString => s
  end.

Definition digit_value (c : ascii) : option Z :=
  let n := Z.of_N (N_of_ascii c) in
  if (48 <=? n)%Z && (n <=? 57)%Z then Some (n - 48)%Z
  else if (97 <=? n)%Z && (n <=? 122)%Z then Some (n - 87)%Z
  else if (65 <=? n)%Z && (n <=? 90)%Z then Some (n - 55)%Z
  else None.

(** The value of the longest prefix of digits of radix [R], [None] when the
    prefix is empty; [acc] is the value read so far. *)
Fixpoint digits (R : Z) (s : string) (acc : option Z) : option Z :=
  match s with
  | EmptyString => acc
  | String c r =>
      match digit_value c with
      | Some d =>
          if (d <? R)%Z
          then digits R r (Some (match acc with
                                 | Some a => a * R + d
                                 | None => d
                                 end)%Z)
          else acc
      | None => acc
      end
  end.

Definition strip_sign (s : string) : bool * string :=
  match s with
  | String "-" r => (true, r)
  | String "+" r => (false, r)
  | _ => (false, s)
  end.

Definition strip_prefix (s : string) : Z * string :=
  match s with
  | String "0" (String "x" r) => (16%Z, r)
  | String "0" (String "X" r) => (16%Z, r)
  | _ => (10%Z, s)
  end.

Definition parseInt (s : string) : number :=
  let '(neg, s1) := strip_sign (skip_white s) in
  let '(R, s2) := strip_prefix s1 in
  match digits R s2 None with
  | None => nan
  | Some m => of_Z neg (if neg then - m else m)%Z
  end.

End JS.
Import JS.

Notation "x <- c ;; k" := (JS.bind c (fun x => k))
  (at level 61, c at next level, right associativity).

(* ===================================================================== *)
(** ** Constants *)
(* ===================================================================== *)

Definition PRO_MEMBERSHIP_FEE : number := 200%float.
Definition MIN_DISCOUNTABLE_QUANTITY : number := 4%float.
Definition DEFAULT_ENROLLMENT_FEE_THRESHOLD : number := 6666.0%float.
Definition DEFAULT_ENROLLMENT_FEE : number := 500%float.

(* ===================================================================== *)
(** ** Programme *)
(* ===================================================================== *)

(** The three members of the [ProgrammeType] object. *)
Inductive ProgrammeType : Type := CERTIFICATION | DEGREE | DIPLOMA.

Definition ProgrammeType_eqb (a b : ProgrammeType) : bool :=
  match a, b with
  | CERTIFICATION, CERTIFICATION => true
  | DEGREE, DEGREE => true
  | DIPLOMA, DIPLOMA => true
  | _, _ => false
  end.

(** [ProgrammeType[name]]. [None] stands for every value that is not one of
    the three type strings: [undefined] for a name the object does not have,
    or a member inherited from [Object.prototype]. The program only compares
    a type with the three strings, so these values behave alike. *)
Definition ProgrammeType_lookup (name : string) : option ProgrammeType :=
  if String.eqb name "CERTIFICATION" then Some CERTIFICATION
  else if String.eqb name "DEGREE" then Some DEGREE
  else if String.eqb name "DIPLOMA" then Some DIPLOMA
  else None.

Record Programme : Type := new_Programme {
  type : option ProgrammeType;
  quantity : number
}.

Definition getType (p : Programme) : option ProgrammeType := type p.
Definition getQuantity (p : Programme) : number := quantity p.

Definition getSingleCost (p : Programme) : number :=
  match type p with
  | Some CERTIFICATION => 3000%float
  | Some DEGREE => 5000%float
  | Some DIPLOMA => 2500%float
  | None => 0%float
  end.

Definition getCost (p : Programme) : number :=
  (getSingleCost p * quantity p)%float.

Definition getDiscountRate (p : Programme) : number :=
  match type p with
  | Some CERTIFICATION => 0.02%float
  | Some DEGREE => 0.03%float
  | Some DIPLOMA => 0.01%float
  | None => 0%float
  end.

(* ===================================================================== *)
(** ** Strategies *)
(* ===================================================================== *)

Inductive DiscountStrategy : Type :=
| B4G1Discount
| DealG20Discount
| DealG5Discount.

Inductive EnrollmentStrategy : Type := DefaultEnrollmentStrategy.

Inductive ProMembershipStrategy : Type := ProMembershipDiscount.

(** [calculateDiscount(beforeDiscount)] of the three discount classes. *)
Definition DiscountStrategy_calculateDiscount
  (s : DiscountStrategy) (beforeDiscount : number) : number :=
  match s with
  | B4G1Discount => 0%float
  | DealG20Discount =>
      if ge beforeDiscount 0%float then (beforeDiscount * 0.20)%float
      else 0%float
  | DealG5Discount =>
      if ge beforeDiscount 0%float then (beforeDiscount * 0.05)%float
      else 0%float
  end.

Definition EnrollmentStrategy_calculateEnrollmentFee
  (s : EnrollmentStrategy) (totalCost : number) : number :=
  match s with
  | DefaultEnrollmentStrategy =>
      if lt totalCost DEFAULT_ENROLLMENT_FEE_THRESHOLD
      then DEFAULT_ENROLLMENT_FEE else 0%float
  end.

Definition ProMembershipStrategy_calculateDiscount
  (s : ProMembershipStrategy) (programmes : list Programme) : number :=
  match s with
  | ProMembershipDiscount =>
      fold_left
        (fun sum programme =>
           (sum + getDiscountRate programme * getCost programme)%float)
        programmes 0%float
  end.

(* ===================================================================== *)
(** ** GeekdemyCart *)
(* ===================================================================== *)

Record GeekdemyCart : Type := mkCart {
  programmes : list Programme;
  discountStrategy : ref DiscountStrategy;
  enrollmentStrategy : ref EnrollmentStrategy;
  proMembershipStrategy : ref ProMembershipStrategy;
  proMembershipFee : number;
  subtotal : number;
  discount : number;
  enrollmentFee : number;
  proMembershipDiscount : number;
  appliedCoupon : option string
}.

(** [new GeekdemyCart()]. *)
Definition new_GeekdemyCart : GeekdemyCart :=
  {| programmes := [];
     discountStrategy := Null;
     enrollmentStrategy := Null;
     proMembershipStrategy := Null;
     proMembershipFee := 0%float;
     subtotal := 0%float;
     discount := 0%float;
     enrollmentFee := 0%float;
     proMembershipDiscount := 0%float;
     appliedCoupon := None |}.

(** Assignments to the fields of [this]. *)
Definition set_programmes (c : GeekdemyCart) (v : list Programme) :=
  mkCart v (discountStrategy c) (enrollmentStrategy c)
    (proMembershipStrategy c) (proMembershipFee c) (subtotal c) (discount c)
    (enrollmentFee c) (proMembershipDiscount c) (appliedCoupon c).
Definition set_discountStrategy (c : GeekdemyCart) (v : ref DiscountStrategy) :=
  mkCart (programmes c) v (enrollmentStrategy c)
    (proMembershipStrategy c) (proMembershipFee c) (subtotal c) (discount c)
    (enrollmentFee c) (proMembershipDiscount c) (appliedCoupon c).
Definition set_enrollmentStrategy (c : GeekdemyCart) (v : ref EnrollmentStrategy) :=
  mkCart (programmes c) (discountStrategy c) v
    (proMembershipStrategy c) (proMembershipFee c) (subtotal c) (discount c)
    (enrollmentFee c) (proMembershipDiscount c) (appliedCoupon c).
Definition set_proMembershipStrategy (c : GeekdemyCart)
  (v : ref ProMembershipStrategy) :=
  mkCart (programmes c) (discountStrategy c) (enrollmentStrategy c)
    v (proMembershipFee c) (subtotal c) (discount c)
    (enrollmentFee c) (proMembershipDiscount c) (appliedCoupon c).
Definition set_proMembershipFee (c : GeekdemyCart) (v : number) :=
  mkCart (programmes c) (discountStrategy c) (enrollmentStrategy c)
    (proMembershipStrategy c) v (subtotal c) (discount c)
    (enrollmentFee c) (proMembershipDiscount c) (appliedCoupon c).
Definition set_subtotal (c : GeekdemyCart) (v : number) :=
  mkCart (programmes c) (discountStrategy c) (enrollmentStrategy c)
    (proMembershipStrategy c) (proMembershipFee c) v (discount c)
    (enrollmentFee c) (proMembershipDiscount c) (appliedCoupon c).
Definition set_discount (c : GeekdemyCart) (v : number) :=
  mkCart (programmes c) (discountStrategy c) (enrollmentStrategy c)
    (proMembershipStrategy c) (proMembershipFee c) (subtotal c) v
    (enrollmentFee c) (proMembershipDiscount c) (appliedCoupon c).
Definition set_enrollmentFee (c : GeekdemyCart) (v : number) :=
  mkCart (programmes c) (discountStrategy c) (enrollmentStrategy c)
    (proMembershipStrategy c) (proMembershipFee c) (subtotal c) (discount c)
    v (proMembershipDiscount c) (appliedCoupon c).
Definition set_proMembershipDiscount (c : GeekdemyCart) (v : number) :=
  mkCart (programmes c) (discountStrategy c) (enrollmentStrategy c)
    (proMembershipStrategy c) (proMembershipFee c) (subtotal c) (discount c)
    (enrollmentFee c) v (appliedCoupon c).
Definition set_appliedCoupon (c : GeekdemyCart) (v : option string) :=
  mkCart (programmes c) (discountStrategy c) (enrollmentStrategy c)
    (proMembershipStrategy c) (proMembershipFee c) (subtotal c) (discount c)
    (enrollmentFee c) (proMembershipDiscount c) v.

(** A method: from the cart it is called on to the value it returns and the
    cart it leaves, or to an exception. *)
Definition method (A : Type) : Type :=
  GeekdemyCart -> completion (A * GeekdemyCart).

Definition getAppliedCoupon (this : GeekdemyCart) : option string :=
  appliedCoupon this.

Definition setAppliedCoupon (this : GeekdemyCart) (coupon : string)
  : GeekdemyCart :=
  set_appliedCoupon this (Some coupon).

Definition setDiscountStrategy (this : GeekdemyCart)
  (s : ref DiscountStrategy) : GeekdemyCart :=
  set_discountStrategy this s.

Definition setEnrollmentStrategy (this : GeekdemyCart)
  (s : ref EnrollmentStrategy) : GeekdemyCart :=
  set_enrollmentStrategy this s.

Definition setProMembershipStrategy (this : GeekdemyCart)
  (s : ref ProMembershipStrategy) : GeekdemyCart :=
  set_proMembershipStrategy this s.

Definition addProMembershipFee (this : GeekdemyCart) : GeekdemyCart :=
  set_proMembershipFee this PRO_MEMBERSHIP_FEE.

Definition getProMembershipFee (this : GeekdemyCart) : number :=
  proMembershipFee this.

Definition GeekdemyCart_addProgramme (this : GeekdemyCart)
  (programme : Programme) : GeekdemyCart :=
  set_programmes this (programmes this ++ [programme]).

Definition getProgrammes (this : GeekdemyCart) : list Programme :=
  programmes this.

Definition calculateSubtotal : method number := fun this =>
  let v := fold_left (fun sum programme => (sum + getCost programme)%float)
             (programmes this) 0%float in
  Normal (v, set_subtotal this v).

Definition calculateProMembershipDiscount : method number := fun this =>
  if gt (proMembershipFee this) 0%float then
    v <- call (proMembershipStrategy this)
           (fun s => ProMembershipStrategy_calculateDiscount s (programmes this)) ;;
    Normal (v, set_proMembershipDiscount this v)
  else Normal (proMembershipDiscount this, this).

Definition isDiscountableProgramme (t : option ProgrammeType) : bool :=
  match t with
  | Some t => existsb (ProgrammeType_eqb t) [CERTIFICATION; DEGREE; DIPLOMA]
  | None => false
  end.

Definition totalDiscountableQuantity (this : GeekdemyCart) : number :=
  fold_left (fun sum programme => (sum + getQuantity programme)%float)
    (filter (fun programme => isDiscountableProgramme (getType programme))
       (programmes this))
    0%float.

Definition calculateMinimumDiscountableProgrammeCost (this : GeekdemyCart)
  : number :=
  fold_left (fun minCost programme => Math_min minCost (getSingleCost programme))
    (filter (fun programme => isDiscountableProgramme (getType programme))
       (programmes this))
    infinity.

Definition calculateDiscount : method number := fun this =>
  if ge (totalDiscountableQuantity this) MIN_DISCOUNTABLE_QUANTITY then
    let v := calculateMinimumDiscountableProgrammeCost this in
    Normal (v, set_discount this v)
  else
    let beforeDiscount :=
      (subtotal this + enrollmentFee this + proMembershipFee this
       - proMembershipDiscount this)%float in
    v <- call (discountStrategy this)
           (fun s => DiscountStrategy_calculateDiscount s beforeDiscount) ;;
    Normal (v, set_discount this v).

Definition calculateEnrollmentFee : method number := fun this =>
  v <- call (enrollmentStrategy this)
         (fun s => EnrollmentStrategy_calculateEnrollmentFee s (subtotal this)) ;;
  Normal (v, set_enrollmentFee this v).

Definition calculateTotalFare : method number := fun this =>
  let totalBeforeDiscount :=
    (subtotal this + enrollmentFee this + proMembershipFee this
     - proMembershipDiscount this)%float in
  this' <-
    (if ge (totalDiscountableQuantity this) MIN_DISCOUNTABLE_QUANTITY then
       Normal (set_discount this (calculateMinimumDiscountableProgrammeCost this))
     else
       v <- call (discountStrategy this)
              (fun s => DiscountStrategy_calculateDiscount s totalBeforeDiscount) ;;
       Normal (set_discount this v)) ;;
  Normal ((totalBeforeDiscount - discount this')%float, this').

(* ===================================================================== *)
(** ** The process: cart, counter and command handlers *)
(* ===================================================================== *)

(** The cart created by [main] together with the global [count]. *)
Record Process : Type := mkProcess {
  cart : GeekdemyCart;
  count : number
}.

Definition addProgramme (w : Process) (tokens : list string) : Process :=
  if Nat.eqb (List.length tokens) 3 then
    let programmeType := ProgrammeType_lookup (nth 1 tokens "") in
    let quantity := parseInt (nth 2 tokens "") in
    {| cart := GeekdemyCart_addProgramme (cart w)
                 (new_Programme programmeType quantity);
       count := (count w + quantity)%float |}
  else w.

(** The names every object literal inherits from [Object.prototype]. *)
Definition Object_prototype_names : list string :=
  [ "constructor"; "__defineGetter__"; "__defineSetter__"; "hasOwnProperty";
    "__lookupGetter__"; "__lookupSetter__"; "isPrototypeOf";
    "propertyIsEnumerable"; "toString"; "valueOf"; "__proto__";
    "toLocaleString" ].

(** [discountStrategies[key]] for the object literal of [applyOtherCoupon]:
    its two own properties, then the inherited ones; [Null] stands for
    [undefined]. *)
Definition discountStrategies_lookup (key : string) : ref DiscountStrategy :=
  if String.eqb key "deal_g20" then Obj DealG20Discount
  else if String.eqb key "deal_g5" then Obj DealG5Discount
  else if existsb (String.eqb key) Object_prototype_names then Inherited
  else Null.

(** [coupon] is [tokens[1]]: [None] when the array has no such element. *)
Definition applyOtherCoupon (cart : GeekdemyCart) (coupon : option string)
  : completion GeekdemyCart :=
  match coupon with
  | None => Throw TypeError
  | Some coupon =>
      let discountStrategy := discountStrategies_lookup (toLowerCase coupon) in
      if truthy discountStrategy then
        Normal (setAppliedCoupon (setDiscountStrategy cart discountStrategy)
                  (toUpperCase coupon))
      else Normal cart
  end.

Definition is_null {A : Type} (o : option A) : bool :=
  match o with
  | None => true
  | Some _ => false
  end.

Definition applyCoupon (w : Process) (tokens : list string)
  : completion Process :=
  if is_null (getAppliedCoupon (cart w))
     && ge (count w) MIN_DISCOUNTABLE_QUANTITY
     && Nat.eqb (List.length tokens) 2
  then Normal {| cart := setAppliedCoupon (cart w) "B4G1"; count := count w |}
  else if is_null (getAppliedCoupon (cart w)) then
    c <- applyOtherCoupon (cart w) (nth_error tokens 1) ;;
    Normal {| cart := c; count := count w |}
  else Normal w.

Definition applyProMembershipCoupon (cart : GeekdemyCart)
  : completion GeekdemyCart :=
  r <- calculateProMembershipDiscount cart ;;
  Normal (addProMembershipFee
            (setProMembershipStrategy (snd r) (Obj ProMembershipDiscount))).

Definition processCommand (w : Process) (command : string)
  : completion Process :=
  let tokens := split " " command in
  match tokens with
  | [] => Normal w
  | t0 :: _ =>
      if String.eqb t0 "ADD_PROGRAMME" then Normal (addProgramme w tokens)
      else if String.eqb t0 "PRO_MEMBERSHIP" then
        c <- applyProMembershipCoupon (cart w) ;;
        Normal {| cart := c; count := count w |}
      else if String.eqb t0 "APPLY_COUPON" then applyCoupon w tokens
      else if String.eqb t0 "PRINT_BILL" then Normal w
      else Normal w
  end.

(** The amounts [printBill] prints, in its order. *)
Record Bill : Type := mkBill {
  SUB_TOTAL : number;
  TOTAL_PRO_DISCOUNT : number;
  PRO_MEMBERSHIP_FEE_line : number;
  ENROLLMENT_FEE : number;
  COUPON_DISCOUNT : option string * number;
  TOTAL : number
}.

Definition printBill : method Bill := fun cart =>
  r1 <- calculateSubtotal cart ;;
  r2 <- calculateProMembershipDiscount (snd r1) ;;
  let fee := getProMembershipFee (snd r2) in
  r3 <- calculateEnrollmentFee (snd r2) ;;
  let coupon := getAppliedCoupon (snd r3) in
  r4 <- calculateDiscount (snd r3) ;;
  r5 <- calculateTotalFare (snd r4) ;;
  Normal (mkBill (fst r1) (fst r2) fee (fst r3) (coupon, fst r4) (fst r5),
          snd r5).

(** The state [main] starts the commands in. *)
Definition initial : Process :=
  {| cart :=
       setProMembershipStrategy
         (setEnrollmentStrategy
            (setDiscountStrategy new_GeekdemyCart (Obj B4G1Discount))
            (Obj DefaultEnrollmentStrategy))
         (Obj ProMembershipDiscount);
     count := 0%float |}.

(** [lines.forEach(line => processCommand(cart, line))]. *)
Fixpoint run (w : Process) (lines : list string) : completion Process :=
  match lines with
  | [] => Normal w
  | line :: rest => w' <- processCommand w line ;; run w' rest
  end.

(** [main], given the content of the input file. *)
Definition main (data : string) : completion Bill :=
  let lines := split "010" data in
  let cleanLines := map (remove_char "013") lines in
  w <- run initial cleanLines ;;
  fmap fst (printBill (cart w)).

(** The calculations the cart offers, and a call of one of them. *)
Inductive calculation : Type :=
| CalculateSubtotal
| CalculateProMembershipDiscount
| CalculateEnrollmentFee
| CalculateDiscount
| CalculateTotalFare.

Definition calculate (k : calculation) : method number :=
  match k with
  | CalculateSubtotal => calculateSubtotal
  | CalculateProMembershipDiscount => calculateProMembershipDiscount
  | CalculateEnrollmentFee => calculateEnrollmentFee
  | CalculateDiscount => calculateDiscount
  | CalculateTotalFare => calculateTotalFare
  end.

(** Calculations called one after the other; the cart they leave. *)
Fixpoint calculate_all (ks : list calculation) (c : GeekdemyCart)
  : completion GeekdemyCart :=
  match ks with
  | [] => Normal c
  | k :: rest => r <- calculate k c ;; calculate_all rest (snd r)
  end.

(** The states of a run: the initial one, and those left by a command or by
    a calculation. *)
Inductive reachable : Process -> Prop :=
| reachable_initial : reachable initial
| reachable_command w command w' :
    reachable w -> processCommand w command = Normal w' -> reachable w'
| reachable_calculate w k v c' :
    reachable w -> calculate k (cart w) = Normal (v, c') ->
    reachable {| cart := c'; count := count w |}.

(* ===================================================================== *)
(** ** The invoice of the specification *)
(* ===================================================================== *)

(** The operations of the invoice as the specification words them, as pure
    functions of the items, the selected discount policy and the membership
    flag. Sums are taken in item order, from zero, in floating point. *)
Module Spec.

Record Invoice : Type := mkInvoice {
  items : list Programme;
  discountPolicy : ref DiscountStrategy;
  membershipActive : bool
}.

Definition unitPrice (kind : option ProgrammeType) : number :=
  match kind with
  | Some CERTIFICATION => 3000%float
  | Some DEGREE => 5000%float
  | Some DIPLOMA => 2500%float
  | None => 0%float
  end.

Definition discountRate (kind : option ProgrammeType) : number :=
  match kind with
  | Some CERTIFICATION => 0.02%float
  | Some DEGREE => 0.03%float
  | Some DIPLOMA => 0.01%float
  | None => 0%float
  end.

Definition cost (item : Programme) : number :=
  (unitPrice (type item) * quantity item)%float.

Definition sum (l : list number) : number := fold_left add l 0%float.

(** A line item of kind Certification, Degree or Diploma. *)
Definition discountable (item : Programme) : bool :=
  match type item with
  | Some _ => true
  | None => false
  end.

Fixpoint minimum (l : list number) : number :=
  match l with
  | [] => infinity
  | x :: rest => Math_min x (minimum rest)
  end.

(** ZeroDiscount and PercentDiscount(rate). *)
Definition percentage (policy : DiscountStrategy) : option number :=
  match policy with
  | B4G1Discount => None
  | DealG20Discount => Some 0.20%float
  | DealG5Discount => Some 0.05%float
  end.

Definition DiscountPolicy_apply (policy : DiscountStrategy)
  (amountBeforeDiscount : number) : number :=
  match percentage policy with
  | None => 0%float
  | Some rate =>
      if ge amountBeforeDiscount 0%float
      then (amountBeforeDiscount * rate)%float else 0%float
  end.

Definition EnrollmentFeePolicy_fee (subtotal : number) : number :=
  if (subtotal <? 6666.0)%float then 500%float else 0%float.

Definition MembershipDiscountPolicy_apply (items : list Programme) : number :=
  sum (map (fun item => (discountRate (type item) * cost item)%float) items).

Section Compute.
Variable inv : Invoice.

Definition computeSubtotal : number := sum (map cost (items inv)).

Definition computeMembershipDiscount : number :=
  if membershipActive inv then MembershipDiscountPolicy_apply (items inv)
  else 0%float.

Definition computeMembershipFee : number :=
  if membershipActive inv then 200%float else 0%float.

Definition computeEnrollmentFee : number :=
  EnrollmentFeePolicy_fee computeSubtotal.

Definition discountableQuantity : number :=
  sum (map quantity (filter discountable (items inv))).

Definition cheapestEligibleUnit : number :=
  minimum (map (fun item => unitPrice (type item))
             (filter discountable (items inv))).

Definition amountBeforeDiscount : number :=
  (computeSubtotal + computeEnrollmentFee + computeMembershipFee
   - computeMembershipDiscount)%float.

Definition computeDiscount : completion number :=
  if ge discountableQuantity 4%float then Normal cheapestEligibleUnit
  else call (discountPolicy inv)
         (fun policy => DiscountPolicy_apply policy amountBeforeDiscount).

Definition computeTotal : completion number :=
  d <- computeDiscount ;;
  Normal (computeSubtotal + computeEnrollmentFee + computeMembershipFee
          - computeMembershipDiscount - d)%float.

(** The six results handed to the printer. *)
Definition bill (label : option string) : completion Bill :=
  d <- computeDiscount ;;
  t <- computeTotal ;;
  Normal (mkBill computeSubtotal computeMembershipDiscount
            computeMembershipFee computeEnrollmentFee (label, d) t).
End Compute.

(** [m] is the least single-unit price among the discountable items. *)
Definition is_minimum_unit_price (m : number) (items : list Programme)
  : Prop :=
  (exists item, In item items /\ discountable item = true
                /\ unitPrice (type item) = m)
  /\ forall item, In item items -> discountable item = true ->
                  (m <=? unitPrice (type item))%float = true.

End Spec.

(** The invoice a cart stands for: membership is active once the fee has
    been charged. *)
Definition invoice_of (c : GeekdemyCart) : Spec.Invoice :=
  Spec.mkInvoice (programmes c) (discountStrategy c)
    (gt (proMembershipFee c) 0%float).

(* ===================================================================== *)
(** ** Invariants of a run *)
(* ===================================================================== *)

(** The strategies installed by [main] stay installed, and the stored
    membership discount is zero as long as no fee has been charged. *)
Definition cart_ok (c : GeekdemyCart) : Prop :=
  discountStrategy c <> Null
  /\ enrollmentStrategy c = Obj DefaultEnrollmentStrategy
  /\ proMembershipStrategy c = Obj ProMembershipDiscount
  /\ ((proMembershipFee c = 0%float /\ proMembershipDiscount c = 0%float)
      \/ proMembershipFee c = PRO_MEMBERSHIP_FEE).

Definition process_ok (w : Process) : Prop :=
  cart_ok (cart w)
  /\ count w = Spec.sum (map quantity (programmes (cart w))).

(** A command whose first token is [PRO_MEMBERSHIP]. *)
Definition is_PRO_MEMBERSHIP (command : string) : bool :=
  match split " " command with
  | t0 :: _ => String.eqb t0 "PRO_MEMBERSHIP"
  | [] => false
  end.

(** The reading of the calculations as pure functions of items, membership
    and policy: a calculation called twice on the cart, with any other
    calculations called in between, returns the same value both times. *)
Definition calculations_pure (w : Process) : Prop :=
  forall k ks v1 c1 c2 v2 c3,
    calculate k (cart w) = Normal (v1, c1) ->
    calculate_all ks c1 = Normal c2 ->
    calculate k c2 = Normal (v2, c3) ->
    v1 = v2.

(** The amount the cart has stored before the coupon discount. *)
Definition totalBeforeDiscount (c : GeekdemyCart) : number :=
  (subtotal c + enrollmentFee c + proMembershipFee c
   - proMembershipDiscount c)%float.

(** The discount both [calculateDiscount] and [calculateTotalFare] arrive
    at, from the amounts stored in the cart. *)
Definition discount_rule (c : GeekdemyCart) : completion number :=
  if ge (totalDiscountableQuantity c) MIN_DISCOUNTABLE_QUANTITY
  then Normal (calculateMinimumDiscountableProgrammeCost c)
  else call (discountStrategy c)
         (fun s => DiscountStrategy_calculateDiscount s (totalBeforeDiscount c)).

(** The amounts stored in the cart are those of its current items and
    membership. *)
Definition stored_fresh (c : GeekdemyCart) : Prop :=
  subtotal c = Spec.computeSubtotal (invoice_of c)
  /\ proMembershipDiscount c = Spec.computeMembershipDiscount (invoice_of c)
  /\ proMembershipFee c = Spec.computeMembershipFee (invoice_of c)
  /\ enrollmentFee c = Spec.computeEnrollmentFee (invoice_of c).

(** The unit prices of the discountable kinds, and the values the running
    minimum can take. *)
Definition prices : list number := [2500; 3000; 5000]%float.
Definition minima : list number := infinity :: prices.

(** The cart after the amounts of a bill have been stored in it. *)
Definition stored (c : GeekdemyCart) (b : Bill) : GeekdemyCart :=
  set_discount
    (set_enrollmentFee
       (set_proMembershipDiscount (set_subtotal c (SUB_TOTAL b))
          (TOTAL_PRO_DISCOUNT b))
       (ENROLLMENT_FEE b))
    (snd (COUPON_DISCOUNT b)).

(* ===================================================================== *)
(** ** What the commands and the bill depend on *)
(* ===================================================================== *)

(** The part of the process the commands read and the bill is made from:
    the programmes, the selected strategy, the coupon label, the membership
    fee and the counter. The stored amounts are left out. *)
Record View : Type := mkView {
  view_programmes : list Programme;
  view_strategy : ref DiscountStrategy;
  view_coupon : option string;
  view_fee : number;
  view_count : number
}.

Definition observe (w : Process) : View :=
  mkView (programmes (cart w)) (discountStrategy (cart w))
    (appliedCoupon (cart w)) (proMembershipFee (cart w)) (count w).

(** The view with the membership fee charged. *)
Definition View_charge (v : View) : View :=
  mkView (view_programmes v) (view_strategy v) (view_coupon v)
    PRO_MEMBERSHIP_FEE (view_count v).

(** The effect of a command on the view. *)
Definition View_step (v : View) (command : string) : completion View :=
  let tokens := split " " command in
  match tokens with
  | [] => Normal v
  | t0 :: _ =>
      if String.eqb t0 "ADD_PROGRAMME" then
        if Nat.eqb (List.length tokens) 3 then
          let quantity := parseInt (nth 2 tokens "") in
          Normal (mkView
                    (view_programmes v
                     ++ [new_Programme (ProgrammeType_lookup (nth 1 tokens ""))
                           quantity])
                    (view_strategy v) (view_coupon v) (view_fee v)
                    (view_count v + quantity)%float)
        else Normal v
      else if String.eqb t0 "PRO_MEMBERSHIP" then Normal (View_charge v)
      else if String.eqb t0 "APPLY_COUPON" then
        if is_null (view_coupon v)
           && ge (view_count v) MIN_DISCOUNTABLE_QUANTITY
           && Nat.eqb (List.length tokens) 2
        then Normal (mkView (view_programmes v) (view_strategy v)
                       (Some "B4G1") (view_fee v) (view_count v))
        else if is_null (view_coupon v) then
          match nth_error tokens 1 with
          | None => Throw TypeError
          | Some coupon =>
              let s := discountStrategies_lookup (toLowerCase coupon) in
              if truthy s then
                Normal (mkView (view_programmes v) s
                          (Some (toUpperCase coupon)) (view_fee v)
                          (view_count v))
              else Normal v
          end
        else Normal v
      else Normal v
  end.

Fixpoint View_run (v : View) (lines : list string) : completion View :=
  match lines with
  | [] => Normal v
  | line :: rest => v' <- View_step v line ;; View_run v' rest
  end.

Definition View_invoice (v : View) : Spec.Invoice :=
  Spec.mkInvoice (view_programmes v) (view_strategy v)
    (gt (view_fee v) 0%float).

Definition View_bill (v : View) : completion Bill :=
  Spec.bill (View_invoice v) (view_coupon v).

(** The bill printed after more lines: the rest of [main] from a state. *)
Definition bill_after (w : Process) (lines : list string) : completion Bill :=
  w' <- run w lines ;; fmap fst (printBill (cart w')).

(** A command that [processCommand] passes over: its first token is none of
    the three handled ones, or it is an ADD_PROGRAMME without exactly three
    tokens. *)
Definition ignored (command : string) : bool :=
  match split " " command with
  | [] => true
  | (t0 :: _) as tokens =>
      if String.eqb t0 "ADD_PROGRAMME"
      then negb (Nat.eqb (List.length tokens) 3)
      else negb (String.eqb t0 "PRO_MEMBERSHIP"
                 || String.eqb t0 "APPLY_COUPON")
  end.

(** An ADD_PROGRAMME command with three tokens, and the programme it adds. *)
Definition is_ADD_PROGRAMME (command : string) : bool :=
  match split " " command with
  | [] => false
  | (t0 :: _) as tokens =>
      String.eqb t0 "ADD_PROGRAMME" && Nat.eqb (List.length tokens) 3
  end.

Definition programme_of (command : string) : Programme :=
  let tokens := split " " command in
  new_Programme (ProgrammeType_lookup (nth 1 tokens ""))
    (parseInt (nth 2 tokens "")).

(** The label and strategy pairs a run can be in. *)
Definition coupon_states : list (option string * ref DiscountStrategy) :=
  [ (None, Obj B4G1Discount);
    (Some "B4G1", Obj B4G1Discount);
    (Some "DEAL_G20", Obj DealG20Discount);
    (Some "DEAL_G5", Obj DealG5Discount);
    (Some "CONSTRUCTOR", Inherited);
    (Some "__PROTO__", Inherited) ].

(** A command that cannot make the run or the bill fail: not an
    APPLY_COUPON without a token, nor one whose token is, up to case, a name
    every object inherits in lower case. *)
Definition safe (command : string) : bool :=
  match split " " command with
  | [] => true
  | t0 :: ts =>
      if String.eqb t0 "APPLY_COUPON" then
        match ts with
        | [] => false
        | t1 :: _ =>
            negb (String.eqb (toLowerCase t1) "constructor"
                  || String.eqb (toLowerCase t1) "__proto__")
        end
      else true
  end.

(** The calculations [printBill] makes before the discount and the total,
    in its order. *)
Definition before_total : list calculation :=
  [CalculateSubtotal; CalculateProMembershipDiscount; CalculateEnrollmentFee].

(** The reading of the total as a function of the state alone: called on
    the cart as it is, [calculateTotalFare] returns the total of the
    specification, whose subtotal is the sum over the items. *)
Definition total_from_state (w : Process) : Prop :=
  fmap fst (calculateTotalFare (cart w))
  = Spec.computeTotal (invoice_of (cart w)).

(** The reading of the B4G1 rule with any argument at all: with the counter
    at 4 or more, a command that has a second token sets the label to B4G1
    and leaves the strategy. *)
Definition b4g1_for_any_argument (w : Process) (tokens : list string)
  : Prop :=
  appliedCoupon (cart w) = None ->
  ge (count w) MIN_DISCOUNTABLE_QUANTITY = true ->
  nth_error tokens 1 <> None ->
  exists w',
    applyCoupon w tokens = Normal w'
    /\ appliedCoupon (cart w') = Some "B4G1"
    /\ discountStrategy (cart w') = discountStrategy (cart w).

(** Carts and processes the statements below are tried on. *)
Definition four_certifications : GeekdemyCart :=
  GeekdemyCart_addProgramme (cart initial)
    (new_Programme (Some CERTIFICATION) 4%float).

Definition two_degrees : Process :=
  addProgramme initial ["ADD_PROGRAMME"; "DEGREE"; "2"].

Definition four_unknown : Process :=
  addProgramme initial ["ADD_PROGRAMME"; "WORKSHOP"; "4"].

Definition diploma_with_deal_g20 : Process :=
  {| cart :=
       setAppliedCoupon
         (setDiscountStrategy
            (cart (addProgramme initial ["ADD_PROGRAMME"; "DIPLOMA"; "2"]))
            (Obj DealG20Discount))
         "DEAL_G20";
     count := 2%float |}.

Definition member_twice : Process :=
  {| cart := addProMembershipFee (cart initial); count := 0%float |}.

Definition member_then_degree : Process :=
  {| cart :=
       GeekdemyCart_addProgramme (addProMembershipFee (cart initial))
         (new_Programme (Some DEGREE) 1%float);
     count := 1%float |}.

Definition two_degrees_subtotalled : Process :=
  {| cart := set_subtotal (cart two_degrees) 10000%float;
     count := count two_degrees |}.

Definition constructor_coupon : Process :=
  {| cart :=
       setAppliedCoupon (setDiscountStrategy (cart initial) Inherited)
         "CONSTRUCTOR";
     count := 0%float |}.

Definition degree_abc : Process :=
  addProgramme initial ["ADD_PROGRAMME"; "DEGREE"; "abc"].

Definition four_degrees : Process :=
  addProgramme initial ["ADD_PROGRAMME"; "DEGREE"; "4"].

(* ===================================================================== *)
(** ** Runs of the program *)
(* ===================================================================== *)

Example scenario_two_certifications_one_degree :
  main "ADD_PROGRAMME CERTIFICATION 2
ADD_PROGRAMME DEGREE 1
PRINT_BILL"
  = Normal (mkBill 11000 0 0 0 (None, 0%float) 11000)%float.
Proof. reflexivity. Qed.

Example scenario_four_certifications :
  main "ADD_PROGRAMME CERTIFICATION 4"
  = Normal (mkBill 12000 0 0 0 (None, 3000%float) 9000)%float.
Proof. reflexivity. Qed.

Example scenario_deal_g20 :
  main "ADD_PROGRAMME DIPLOMA 2
APPLY_COUPON deal_g20"
  = Normal (mkBill 5000 0 0 500 (Some "DEAL_G20", 1100%float) 4400)%float.
Proof. reflexivity. Qed.

Example scenario_membership_then_degree :
  main "PRO_MEMBERSHIP
ADD_PROGRAMME DEGREE 1"
  = Normal (mkBill 5000 150 200 500 (None, 0%float) 5550)%float.
Proof. reflexivity. Qed.

Example parseInt_examples :
  parseInt "3" = 3%float /\ parseInt " -12abc" = (-12)%float
  /\ parseInt "0x1F" = 31%float /\ parseInt "4.9" = 4%float
  /\ is_nan (parseInt "abc") = true /\ is_nan (parseInt "") = true.
Proof. repeat split; reflexivity. Qed.

Example split_examples :
  split " " "APPLY_COUPON" = ["APPLY_COUPON"]
  /\ split " " "A  B " = ["A"; ""; "B"; ""].
Proof. split; reflexivity. Qed.

(* ===================================================================== *)
(** ** The methods against the specification's operations *)
(* ===================================================================== *)

(** Tactics: cases of a membership in a literal list, splitting a
    conjunction, and goals left by a field that did not change. *)
Ltac in_cases H :=
  repeat (destruct H as [H|H]; [subst|]); try contradiction.
Ltac conj_split := repeat match goal with |- _ /\ _ => split end.
Ltac unchanged := conj_split; try reflexivity; try (intros Hcart; exact Hcart).

Section Reduce.
Context {A : Type} (f : A -> number).

(** [reduce((sum, x) => sum + f(x), a)] adds the values of [f] in order. *)
Lemma reduce_add_map (l : list A) (a : number) :
  fold_left (fun sum x => (sum + f x)%float) l a
  = fold_left add (map f l) a.
Proof.
  revert a; induction l as [|x l IH]; intro a; simpl; [reflexivity|].
  apply IH.
Qed.
End Reduce.

Lemma sum_snoc (l : list number) (x : number) :
  Spec.sum (l ++ [x]) = (Spec.sum l + x)%float.
Proof. unfold Spec.sum. rewrite fold_left_app. reflexivity. Qed.

Lemma getSingleCost_unitPrice (p : Programme) :
  getSingleCost p = Spec.unitPrice (type p).
Proof. reflexivity. Qed.

Lemma getCost_cost (p : Programme) : getCost p = Spec.cost p.
Proof. reflexivity. Qed.

Lemma getDiscountRate_discountRate (p : Programme) :
  getDiscountRate p = Spec.discountRate (type p).
Proof. reflexivity. Qed.

Lemma isDiscountableProgramme_discountable (p : Programme) :
  isDiscountableProgramme (getType p) = Spec.discountable p.
Proof.
  unfold getType, Spec.discountable.
  destruct (type p) as [[]|]; reflexivity.
Qed.

Lemma filter_discountable (l : list Programme) :
  filter (fun programme => isDiscountableProgramme (getType programme)) l
  = filter Spec.discountable l.
Proof. apply filter_ext, isDiscountableProgramme_discountable. Qed.

Lemma subtotal_reduce (l : list Programme) :
  fold_left (fun sum programme => (sum + getCost programme)%float) l 0%float
  = Spec.sum (map Spec.cost l).
Proof. apply (reduce_add_map getCost). Qed.

Lemma ProMembershipDiscount_apply (l : list Programme) :
  ProMembershipStrategy_calculateDiscount ProMembershipDiscount l
  = Spec.MembershipDiscountPolicy_apply l.
Proof.
  apply (reduce_add_map (fun p => (getDiscountRate p * getCost p)%float)).
Qed.

Lemma DiscountStrategy_apply (s : DiscountStrategy) (x : number) :
  DiscountStrategy_calculateDiscount s x = Spec.DiscountPolicy_apply s x.
Proof. destruct s; reflexivity. Qed.

Lemma totalDiscountableQuantity_spec (c : GeekdemyCart) :
  totalDiscountableQuantity c = Spec.discountableQuantity (invoice_of c).
Proof.
  unfold totalDiscountableQuantity, Spec.discountableQuantity.
  rewrite filter_discountable. apply (reduce_add_map getQuantity).
Qed.

(** *** The fold of [Math.min] over the unit prices *)

Lemma unitPrice_prices (p : Programme) :
  Spec.discountable p = true -> In (Spec.unitPrice (type p)) prices.
Proof.
  unfold Spec.discountable, prices.
  destruct (type p) as [[]|]; simpl; intros H; try discriminate; auto.
Qed.

Lemma Math_min_minima (a b : number) :
  In a minima -> In b minima -> In (Math_min a b) minima.
Proof.
  intros Ha Hb. unfold minima, prices in *. simpl in Ha, Hb.
  in_cases Ha; in_cases Hb; vm_compute; auto 6.
Qed.

Lemma Math_min_assoc (a b c : number) :
  In a minima -> In b minima -> In c minima ->
  Math_min (Math_min a b) c = Math_min a (Math_min b c).
Proof.
  intros Ha Hb Hc. unfold minima, prices in *. simpl in Ha, Hb, Hc.
  in_cases Ha; in_cases Hb; in_cases Hc; reflexivity.
Qed.

Lemma Math_min_infinity_r (a : number) :
  In a minima -> Math_min a infinity = a.
Proof.
  intros Ha. unfold minima, prices in *. simpl in Ha.
  in_cases Ha; reflexivity.
Qed.

Lemma Math_min_infinity_l (a : number) :
  In a minima -> Math_min infinity a = a.
Proof.
  intros Ha. unfold minima, prices in *. simpl in Ha.
  in_cases Ha; reflexivity.
Qed.

Lemma Math_min_le (a b : number) :
  In a minima -> In b minima ->
  (Math_min a b <=? a)%float = true /\ (Math_min a b <=? b)%float = true.
Proof.
  intros Ha Hb. unfold minima, prices in *. simpl in Ha, Hb.
  in_cases Ha; in_cases Hb; split; reflexivity.
Qed.

Lemma Math_min_either (a b : number) :
  In a minima -> In b minima -> Math_min a b = a \/ Math_min a b = b.
Proof.
  intros Ha Hb. unfold minima, prices in *. simpl in Ha, Hb.
  in_cases Ha; in_cases Hb; vm_compute; auto.
Qed.

Lemma leb_trans_minima (a b c : number) :
  In a minima -> In b minima -> In c minima ->
  (a <=? b)%float = true -> (b <=? c)%float = true -> (a <=? c)%float = true.
Proof.
  intros Ha Hb Hc. unfold minima, prices in *. simpl in Ha, Hb, Hc.
  in_cases Ha; in_cases Hb; in_cases Hc; vm_compute; congruence.
Qed.

Lemma prices_minima (a : number) : In a prices -> In a minima.
Proof. intros H. right. exact H. Qed.

Lemma minimum_minima (l : list Programme) :
  (forall p, In p l -> Spec.discountable p = true) ->
  In (Spec.minimum (map (fun item => Spec.unitPrice (type item)) l)) minima.
Proof.
  induction l as [|p l IH]; intros Hl; simpl.
  - left. reflexivity.
  - apply Math_min_minima.
    + apply prices_minima, unitPrice_prices, Hl. left. reflexivity.
    + apply IH. intros q Hq. apply Hl. right. exact Hq.
Qed.

(** The left fold of the program computes the minimum of the list. *)
Lemma reduce_min_minimum (l : list Programme) (acc : number) :
  (forall p, In p l -> Spec.discountable p = true) ->
  In acc minima ->
  fold_left (fun minCost programme => Math_min minCost (getSingleCost programme))
    l acc
  = Math_min acc (Spec.minimum (map (fun item => Spec.unitPrice (type item)) l)).
Proof.
  revert acc; induction l as [|p l IH]; intros acc Hl Hacc; simpl.
  - symmetry. apply Math_min_infinity_r. exact Hacc.
  - assert (Hp : In (Spec.unitPrice (type p)) minima).
    { apply prices_minima, unitPrice_prices, Hl. left. reflexivity. }
    assert (Hl' : forall q, In q l -> Spec.discountable q = true).
    { intros q Hq. apply Hl. right. exact Hq. }
    rewrite IH; [|exact Hl'|].
    + rewrite getSingleCost_unitPrice.
      apply Math_min_assoc; [exact Hacc|exact Hp|].
      apply minimum_minima. exact Hl'.
    + rewrite getSingleCost_unitPrice. apply Math_min_minima; assumption.
Qed.

Lemma filter_discountable_all (l : list Programme) (p : Programme) :
  In p (filter Spec.discountable l) -> Spec.discountable p = true.
Proof. intros H. apply filter_In in H. apply H. Qed.

Lemma calculateMinimum_spec (c : GeekdemyCart) :
  calculateMinimumDiscountableProgrammeCost c
  = Spec.cheapestEligibleUnit (invoice_of c).
Proof.
  unfold calculateMinimumDiscountableProgrammeCost, Spec.cheapestEligibleUnit.
  rewrite filter_discountable. simpl.
  rewrite reduce_min_minimum.
  - apply Math_min_infinity_l, minimum_minima, filter_discountable_all.
  - apply filter_discountable_all.
  - left. reflexivity.
Qed.

(** The minimum of a non-empty list of unit prices is one of them and is
    below each of them. *)
Lemma minimum_least (l : list Programme) :
  l <> [] ->
  (forall p, In p l -> Spec.discountable p = true) ->
  let m := Spec.minimum (map (fun item => Spec.unitPrice (type item)) l) in
  In m prices
  /\ (exists p, In p l /\ Spec.unitPrice (type p) = m)
  /\ (forall p, In p l -> (m <=? Spec.unitPrice (type p))%float = true).
Proof.
  induction l as [|p l IH]; intros Hne Hl; [contradiction|].
  assert (Hp : In (Spec.unitPrice (type p)) prices).
  { apply unitPrice_prices, Hl. left. reflexivity. }
  assert (Hl' : forall q, In q l -> Spec.discountable q = true).
  { intros q Hq. apply Hl. right. exact Hq. }
  destruct l as [|q l].
  - simpl. rewrite Math_min_infinity_r by (apply prices_minima; exact Hp).
    split; [exact Hp|]. split.
    + exists p. split; [left|]; reflexivity.
    + intros r [<-|[]]. unfold prices in Hp. simpl in Hp.
      in_cases Hp; match goal with H : _ = Spec.unitPrice _ |- _ =>
        rewrite <- H end; reflexivity.
  - destruct (IH ltac:(discriminate) Hl') as (Hm & (r & Hr & Hrm) & Hle).
    set (m' := Spec.minimum (map (fun item => Spec.unitPrice (type item)) (q :: l))) in *.
    change (Spec.minimum (map (fun item => Spec.unitPrice (type item)) (p :: q :: l)))
      with (Math_min (Spec.unitPrice (type p)) m').
    cbv zeta.
    pose proof (prices_minima _ Hp) as Hp'.
    pose proof (prices_minima _ Hm) as Hm'.
    destruct (Math_min_le _ _ Hp' Hm') as [Hlp Hlm].
    split; [|split].
    + destruct (Math_min_either _ _ Hp' Hm') as [->| ->]; assumption.
    + destruct (Math_min_either _ _ Hp' Hm') as [E|E]; rewrite E.
      * exists p. split; [left|]; reflexivity.
      * exists r. split; [right; exact Hr|exact Hrm].
    + intros x [<-|Hx]; [exact Hlp|].
      apply (leb_trans_minima _ m' _).
      * apply Math_min_minima; assumption.
      * exact Hm'.
      * apply prices_minima, unitPrice_prices, Hl'. exact Hx.
      * exact Hlm.
      * apply Hle. exact Hx.
Qed.

(** Four discountable units cannot come from an empty list. *)
Lemma discountableQuantity_nonempty (inv : Spec.Invoice) :
  ge (Spec.discountableQuantity inv) 4%float = true ->
  filter Spec.discountable (Spec.items inv) <> [].
Proof.
  unfold Spec.discountableQuantity. intros H E. rewrite E in H.
  vm_compute in H. discriminate.
Qed.

Lemma cheapest_is_minimum (inv : Spec.Invoice) :
  filter Spec.discountable (Spec.items inv) <> [] ->
  In (Spec.cheapestEligibleUnit inv) prices
  /\ Spec.is_minimum_unit_price (Spec.cheapestEligibleUnit inv) (Spec.items inv).
Proof.
  intros Hne. unfold Spec.cheapestEligibleUnit, Spec.is_minimum_unit_price.
  destruct (minimum_least _ Hne (filter_discountable_all _))
    as (Hm & (p & Hp & Hpm) & Hle).
  split; [exact Hm|]. split.
  - exists p. apply filter_In in Hp. destruct Hp as [Hin Hd].
    repeat split; assumption.
  - intros item Hin Hd. apply Hle. apply filter_In. split; assumption.
Qed.

(** *** The calculations, one by one *)

Lemma calculateSubtotal_eq (c : GeekdemyCart) :
  calculateSubtotal c
  = Normal (Spec.computeSubtotal (invoice_of c),
            set_subtotal c (Spec.computeSubtotal (invoice_of c))).
Proof.
  unfold calculateSubtotal. rewrite subtotal_reduce. reflexivity.
Qed.

Lemma calculateDiscount_rule (c : GeekdemyCart) :
  calculateDiscount c = d <- discount_rule c ;; Normal (d, set_discount c d).
Proof.
  unfold calculateDiscount, discount_rule, totalBeforeDiscount.
  destruct (ge (totalDiscountableQuantity c) MIN_DISCOUNTABLE_QUANTITY);
    [reflexivity|].
  destruct (discountStrategy c); reflexivity.
Qed.

Lemma calculateTotalFare_rule (c : GeekdemyCart) :
  calculateTotalFare c
  = d <- discount_rule c ;;
    Normal ((totalBeforeDiscount c - d)%float, set_discount c d).
Proof.
  unfold calculateTotalFare, discount_rule, totalBeforeDiscount.
  destruct (ge (totalDiscountableQuantity c) MIN_DISCOUNTABLE_QUANTITY);
    [reflexivity|].
  destruct (discountStrategy c); reflexivity.
Qed.

(** Membership fee and flag agree once the fee is one of its two values. *)
Lemma membershipFee_spec (c : GeekdemyCart) :
  proMembershipFee c = 0%float \/ proMembershipFee c = PRO_MEMBERSHIP_FEE ->
  proMembershipFee c = Spec.computeMembershipFee (invoice_of c).
Proof.
  unfold Spec.computeMembershipFee, invoice_of. simpl.
  intros [E|E]; rewrite E; reflexivity.
Qed.

Lemma totalBeforeDiscount_fresh (c : GeekdemyCart) :
  stored_fresh c ->
  totalBeforeDiscount c = Spec.amountBeforeDiscount (invoice_of c).
Proof.
  intros (Hs & Hd & Hf & He).
  unfold totalBeforeDiscount, Spec.amountBeforeDiscount.
  rewrite <- Hs, <- Hd, <- Hf, <- He. reflexivity.
Qed.

Lemma discount_rule_fresh (c : GeekdemyCart) :
  stored_fresh c -> discount_rule c = Spec.computeDiscount (invoice_of c).
Proof.
  intros Hfresh. unfold discount_rule, Spec.computeDiscount.
  rewrite totalDiscountableQuantity_spec, calculateMinimum_spec.
  rewrite (totalBeforeDiscount_fresh c Hfresh).
  change MIN_DISCOUNTABLE_QUANTITY with 4%float.
  destruct (ge (Spec.discountableQuantity (invoice_of c)) 4%float); [reflexivity|].
  change (Spec.discountPolicy (invoice_of c)) with (discountStrategy c).
  destruct (discountStrategy c); simpl; try reflexivity.
  rewrite DiscountStrategy_apply. reflexivity.
Qed.

Lemma calculateProMembershipDiscount_ok (c : GeekdemyCart) :
  cart_ok c ->
  calculateProMembershipDiscount c
  = Normal (Spec.computeMembershipDiscount (invoice_of c),
            set_proMembershipDiscount c
              (Spec.computeMembershipDiscount (invoice_of c))).
Proof.
  intros (_ & _ & Hpro & Hfee).
  unfold calculateProMembershipDiscount, Spec.computeMembershipDiscount.
  unfold invoice_of; cbn [Spec.membershipActive Spec.items].
  destruct c as [ps ds es prs fee sub dis ef pd ac]; cbn in *. subst prs.
  destruct Hfee as [[-> ->]| ->].
  - reflexivity.
  - change (gt PRO_MEMBERSHIP_FEE 0%float) with true. cbn [call bind].
    rewrite ProMembershipDiscount_apply. reflexivity.
Qed.

Lemma calculateEnrollmentFee_ok (c : GeekdemyCart) :
  enrollmentStrategy c = Obj DefaultEnrollmentStrategy ->
  calculateEnrollmentFee c
  = Normal (Spec.EnrollmentFeePolicy_fee (subtotal c),
            set_enrollmentFee c (Spec.EnrollmentFeePolicy_fee (subtotal c))).
Proof.
  intros H. unfold calculateEnrollmentFee. rewrite H. reflexivity.
Qed.

Lemma cart_ok_fee (c : GeekdemyCart) :
  cart_ok c ->
  proMembershipFee c = 0%float \/ proMembershipFee c = PRO_MEMBERSHIP_FEE.
Proof. intros (_ & _ & _ & [[H _]|H]); auto. Qed.

(** [printBill] returns the bill of the specification for the invoice the
    cart stands for, and stores its amounts. *)
Lemma printBill_bill (c : GeekdemyCart) :
  cart_ok c ->
  printBill c
  = b <- Spec.bill (invoice_of c) (appliedCoupon c) ;; Normal (b, stored c b).
Proof.
  intros Hok. pose proof Hok as (Hds & Hes & Hpro & Hfee).
  unfold printBill. rewrite calculateSubtotal_eq. cbn [bind snd fst].
  set (c1 := set_subtotal c _).
  assert (Hok1 : cart_ok c1) by exact Hok.
  rewrite (calculateProMembershipDiscount_ok c1 Hok1). cbn [bind snd fst].
  change (invoice_of c1) with (invoice_of c).
  set (c2 := set_proMembershipDiscount c1 _).
  rewrite (calculateEnrollmentFee_ok c2 Hes). cbn [bind snd fst].
  change (subtotal c2) with (Spec.computeSubtotal (invoice_of c)).
  fold (Spec.computeEnrollmentFee (invoice_of c)).
  set (c3 := set_enrollmentFee c2 _).
  assert (Hfresh3 : stored_fresh c3).
  { repeat split. apply (membershipFee_spec c), cart_ok_fee, Hok. }
  rewrite calculateDiscount_rule, (discount_rule_fresh c3 Hfresh3).
  change (invoice_of c3) with (invoice_of c).
  unfold Spec.bill, Spec.computeTotal.
  destruct (Spec.computeDiscount (invoice_of c)) as [d|e] eqn:Hd;
    cbn [bind snd fst]; [|reflexivity].
  set (c4 := set_discount c3 d).
  assert (Hfresh4 : stored_fresh c4) by exact Hfresh3.
  rewrite calculateTotalFare_rule, (discount_rule_fresh c4 Hfresh4).
  change (invoice_of c4) with (invoice_of c). rewrite Hd. cbn [bind snd fst].
  rewrite (totalBeforeDiscount_fresh c4 Hfresh4).
  replace (getProMembershipFee c2)
    with (Spec.computeMembershipFee (invoice_of c))
    by (symmetry; apply (membershipFee_spec c), cart_ok_fee, Hok).
  reflexivity.
Qed.

(** *** What calculations and commands leave unchanged *)

Lemma gt_zero_zero : gt 0%float 0%float = false.
Proof. reflexivity. Qed.

Lemma calculateProMembershipDiscount_frame (c : GeekdemyCart) v c' :
  calculateProMembershipDiscount c = Normal (v, c') ->
  c' = c \/ (gt (proMembershipFee c) 0%float = true
             /\ c' = set_proMembershipDiscount c v).
Proof.
  unfold calculateProMembershipDiscount.
  destruct (gt (proMembershipFee c) 0%float) eqn:Hgt.
  - destruct (proMembershipStrategy c); cbn; intros H; inversion H; auto.
  - intros H; inversion H; auto.
Qed.

Lemma calculate_frame (k : calculation) (c : GeekdemyCart) v c' :
  calculate k c = Normal (v, c') ->
  programmes c' = programmes c
  /\ discountStrategy c' = discountStrategy c
  /\ proMembershipFee c' = proMembershipFee c
  /\ appliedCoupon c' = appliedCoupon c
  /\ (cart_ok c -> cart_ok c').
Proof.
  destruct k; cbn [calculate].
  - rewrite calculateSubtotal_eq. intros H; inversion H; subst. unchanged.
  - intros H. apply calculateProMembershipDiscount_frame in H.
    destruct H as [->|[Hgt ->]]; unchanged.
    intros (Hd & He & Hp & Hf). unfold cart_ok. cbn.
    conj_split; try assumption.
    destruct Hf as [[Hz _]|Hf]; [|right; exact Hf].
    rewrite Hz, gt_zero_zero in Hgt. discriminate.
  - unfold calculateEnrollmentFee.
    destruct (enrollmentStrategy c); cbn; intros H; inversion H; subst.
    unchanged.
  - rewrite calculateDiscount_rule.
    destruct (discount_rule c); cbn; intros H; inversion H; subst.
    unchanged.
  - rewrite calculateTotalFare_rule.
    destruct (discount_rule c); cbn; intros H; inversion H; subst.
    unchanged.
Qed.

Lemma calculate_all_frame (ks : list calculation) (c c' : GeekdemyCart) :
  calculate_all ks c = Normal c' ->
  programmes c' = programmes c
  /\ discountStrategy c' = discountStrategy c
  /\ proMembershipFee c' = proMembershipFee c
  /\ appliedCoupon c' = appliedCoupon c
  /\ (cart_ok c -> cart_ok c').
Proof.
  revert c; induction ks as [|k ks IH]; intros c; cbn [calculate_all].
  - intros H; inversion H; subst. unchanged.
  - destruct (calculate k c) as [[v c1]|e] eqn:Hk; cbn; [|discriminate].
    intros H. apply IH in H. apply calculate_frame in Hk.
    destruct H as (H1 & H2 & H3 & H4 & H5).
    destruct Hk as (K1 & K2 & K3 & K4 & K5).
    conj_split; try congruence. auto.
Qed.

Lemma addProgramme_ok (w : Process) (tokens : list string) :
  process_ok w -> process_ok (addProgramme w tokens).
Proof.
  intros [Hc Hn]. unfold addProgramme.
  destruct (Nat.eqb (List.length tokens) 3); [|split; assumption].
  split; [exact Hc|].
  unfold GeekdemyCart_addProgramme, set_programmes.
  cbn [cart count programmes].
  rewrite map_app. cbn [map quantity]. rewrite sum_snoc, Hn. reflexivity.
Qed.

Lemma applyProMembershipCoupon_frame (c c' : GeekdemyCart) :
  applyProMembershipCoupon c = Normal c' ->
  programmes c' = programmes c
  /\ discountStrategy c' = discountStrategy c
  /\ proMembershipFee c' = PRO_MEMBERSHIP_FEE
  /\ appliedCoupon c' = appliedCoupon c
  /\ (cart_ok c -> cart_ok c').
Proof.
  unfold applyProMembershipCoupon.
  destruct (calculateProMembershipDiscount c) as [[v c1]|e] eqn:Hp; cbn;
    [|discriminate].
  intros H; inversion H; subst; clear H.
  apply calculateProMembershipDiscount_frame in Hp.
  destruct Hp as [->|[_ ->]]; conj_split; try reflexivity;
    intros (Hd & He & _ & _); unfold cart_ok; cbn; conj_split;
    try assumption; try reflexivity; right; reflexivity.
Qed.

Lemma applyProMembershipCoupon_returns (c : GeekdemyCart) :
  cart_ok c -> exists c', applyProMembershipCoupon c = Normal c'.
Proof.
  intros Hok. unfold applyProMembershipCoupon.
  rewrite (calculateProMembershipDiscount_ok c Hok). cbn. eauto.
Qed.

Lemma applyOtherCoupon_frame (c c' : GeekdemyCart) (coupon : option string) :
  applyOtherCoupon c coupon = Normal c' ->
  programmes c' = programmes c
  /\ proMembershipFee c' = proMembershipFee c
  /\ (cart_ok c -> cart_ok c').
Proof.
  unfold applyOtherCoupon. destruct coupon as [coupon|]; [|discriminate].
  destruct (discountStrategies_lookup (toLowerCase coupon)) eqn:Hl; cbn;
    intros H; inversion H; subst; unchanged;
    intros (Hd & He & Hp & Hf); unfold cart_ok; cbn; conj_split;
    try assumption; discriminate.
Qed.

Lemma applyCoupon_frame (w w' : Process) (tokens : list string) :
  applyCoupon w tokens = Normal w' ->
  programmes (cart w') = programmes (cart w)
  /\ proMembershipFee (cart w') = proMembershipFee (cart w)
  /\ count w' = count w
  /\ (cart_ok (cart w) -> cart_ok (cart w')).
Proof.
  unfold applyCoupon.
  destruct (is_null (getAppliedCoupon (cart w))
            && ge (count w) MIN_DISCOUNTABLE_QUANTITY
            && Nat.eqb (List.length tokens) 2).
  - intros H; inversion H; subst. unchanged.
  - destruct (is_null (getAppliedCoupon (cart w))).
    + destruct (applyOtherCoupon (cart w) (nth_error tokens 1)) as [c|e] eqn:Ho;
        cbn; [|discriminate].
      intros H; inversion H; subst. cbn.
      apply applyOtherCoupon_frame in Ho. destruct Ho as (H1 & H2 & H3).
      conj_split; auto.
    + intros H; inversion H; subst. unchanged.
Qed.

(** The four ways a command can end normally. *)
Lemma processCommand_cases (w w' : Process) (command : string) :
  processCommand w command = Normal w' ->
  w' = addProgramme w (split " " command)
  \/ (is_PRO_MEMBERSHIP command = true
      /\ exists c, applyProMembershipCoupon (cart w) = Normal c
                   /\ w' = {| cart := c; count := count w |})
  \/ applyCoupon w (split " " command) = Normal w'
  \/ w' = w.
Proof.
  unfold processCommand, is_PRO_MEMBERSHIP.
  destruct (split " " command) as [|t0 ts] eqn:Hs.
  - intros H; inversion H; auto.
  - destruct (String.eqb t0 "ADD_PROGRAMME").
    { intros H; inversion H; auto. }
    destruct (String.eqb t0 "PRO_MEMBERSHIP").
    { destruct (applyProMembershipCoupon (cart w)) as [c|e]; cbn;
        [|discriminate].
      intros H; inversion H. right; left. split; [reflexivity|].
      exists c. auto. }
    destruct (String.eqb t0 "APPLY_COUPON"); [auto|].
    destruct (String.eqb t0 "PRINT_BILL"); intros H; inversion H; auto.
Qed.

Lemma processCommand_ok (w w' : Process) (command : string) :
  processCommand w command = Normal w' -> process_ok w -> process_ok w'.
Proof.
  intros H [Hc Hn]. apply processCommand_cases in H.
  destruct H as [->|[(_ & c & Hp & ->)|[Ha| ->]]].
  - apply addProgramme_ok. split; assumption.
  - apply applyProMembershipCoupon_frame in Hp.
    destruct Hp as (H1 & _ & _ & _ & H5).
    split; cbn; [auto|]. rewrite H1. exact Hn.
  - apply applyCoupon_frame in Ha. destruct Ha as (H1 & _ & H3 & H4).
    split; [auto|]. rewrite H1, H3. exact Hn.
  - split; assumption.
Qed.

Lemma initial_ok : process_ok initial.
Proof.
  split; [|reflexivity].
  unfold cart_ok; conj_split; try reflexivity; cbn;
    [discriminate|left; split; reflexivity].
Qed.

(** Every state of a run satisfies the invariants. *)
Lemma reachable_ok (w : Process) : reachable w -> process_ok w.
Proof.
  induction 1 as [|w command w' _ IH H|w k v c' _ IH H].
  - exact initial_ok.
  - exact (processCommand_ok _ _ _ H IH).
  - destruct IH as [Hc Hn]. apply calculate_frame in H.
    destruct H as (H1 & _ & _ & _ & H5).
    split; cbn; [auto|]. rewrite H1. exact Hn.
Qed.

Lemma run_reachable (lines : list string) (w w' : Process) :
  reachable w -> run w lines = Normal w' -> reachable w'.
Proof.
  revert w; induction lines as [|line lines IH]; intros w Hw; cbn [run].
  - intros H; inversion H; subst; exact Hw.
  - destruct (processCommand w line) as [w1|e] eqn:Hp; cbn; [|discriminate].
    apply IH. exact (reachable_command _ _ _ Hw Hp).
Qed.

(* ===================================================================== *)
(** ** The bulk discount *)
(* ===================================================================== *)

(** With four discountable units the rule returns the cheapest unit price,
    whatever the strategy. *)
Lemma discount_rule_bulk (c : GeekdemyCart) :
  ge (totalDiscountableQuantity c) MIN_DISCOUNTABLE_QUANTITY = true ->
  discount_rule c = Normal (calculateMinimumDiscountableProgrammeCost c)
  /\ In (calculateMinimumDiscountableProgrammeCost c) prices
  /\ Spec.is_minimum_unit_price (calculateMinimumDiscountableProgrammeCost c)
       (programmes c).
Proof.
  intros H. unfold discount_rule. rewrite H. split; [reflexivity|].
  rewrite calculateMinimum_spec. apply cheapest_is_minimum.
  apply discountableQuantity_nonempty.
  rewrite <- totalDiscountableQuantity_spec. exact H.
Qed.

Lemma prices_finite (m : number) : In m prices -> is_infinity m = false.
Proof. unfold prices. simpl. intros H. in_cases H; reflexivity. Qed.

(** C1: the discount used in the total is the bulk override exactly when the
    discountable quantity (the quantities of the Certification, Degree and
    Diploma items, added up) is at least 4; it is then the least single-unit
    price among the discountable items, whichever discount strategy is
    selected; otherwise it is the output of the selected strategy. *)
Theorem bulk_discount_override (c : GeekdemyCart) :
  if ge (Spec.discountableQuantity (invoice_of c)) 4%float then
    exists m,
      Spec.is_minimum_unit_price m (programmes c)
      /\ calculateTotalFare c
         = Normal ((totalBeforeDiscount c - m)%float, set_discount c m)
      /\ calculateDiscount c = Normal (m, set_discount c m)
      /\ forall policy,
           calculateTotalFare (set_discountStrategy c policy)
           = Normal ((totalBeforeDiscount c - m)%float,
                     set_discount (set_discountStrategy c policy) m)
           /\ calculateDiscount (set_discountStrategy c policy)
              = Normal (m, set_discount (set_discountStrategy c policy) m)
  else
    calculateTotalFare c
    = (d <- call (discountStrategy c)
              (fun s => DiscountStrategy_calculateDiscount s
                          (totalBeforeDiscount c)) ;;
       Normal ((totalBeforeDiscount c - d)%float, set_discount c d))
    /\ calculateDiscount c
       = (d <- call (discountStrategy c)
                 (fun s => DiscountStrategy_calculateDiscount s
                             (totalBeforeDiscount c)) ;;
          Normal (d, set_discount c d)).
Proof.
  rewrite <- totalDiscountableQuantity_spec.
  rewrite calculateTotalFare_rule, calculateDiscount_rule.
  destruct (ge (totalDiscountableQuantity c) 4%float) eqn:Hq.
  - destruct (discount_rule_bulk c Hq) as (Hr & _ & Hmin).
    exists (calculateMinimumDiscountableProgrammeCost c).
    rewrite Hr. cbn [bind]. conj_split; try reflexivity; [exact Hmin|].
    intros policy.
    rewrite calculateTotalFare_rule, calculateDiscount_rule.
    assert (Hq' : ge (totalDiscountableQuantity (set_discountStrategy c policy))
                    MIN_DISCOUNTABLE_QUANTITY = true) by exact Hq.
    destruct (discount_rule_bulk _ Hq') as (Hr' & _ & _).
    rewrite Hr'. split; reflexivity.
  - unfold discount_rule. change MIN_DISCOUNTABLE_QUANTITY with 4%float.
    rewrite Hq. split; reflexivity.
Qed.

(** C10: when the bulk override applies, the list of discountable items is
    not empty, so the fold of [Math.min] started at [Infinity] returns the
    unit price of an item of the cart, one of 2500, 3000 and 5000; that
    finite price is the discount, and the total is the stored amount minus
    it. *)
Theorem infinity_sentinel_unreachable (c : GeekdemyCart) :
  ge (totalDiscountableQuantity c) MIN_DISCOUNTABLE_QUANTITY = true ->
  let m := calculateMinimumDiscountableProgrammeCost c in
  filter (fun programme => isDiscountableProgramme (getType programme))
    (programmes c) <> []
  /\ In m prices
  /\ is_infinity m = false
  /\ (exists programme,
        In programme (programmes c)
        /\ isDiscountableProgramme (getType programme) = true
        /\ getSingleCost programme = m)
  /\ calculateDiscount c = Normal (m, set_discount c m)
  /\ calculateTotalFare c
     = Normal ((totalBeforeDiscount c - m)%float, set_discount c m).
Proof.
  intros Hq m. destruct (discount_rule_bulk c Hq) as (Hr & Hp & Hex & _).
  rewrite calculateDiscount_rule, calculateTotalFare_rule, Hr. cbn [bind].
  conj_split; try reflexivity.
  - rewrite filter_discountable.
    apply (discountableQuantity_nonempty (invoice_of c)).
    rewrite <- totalDiscountableQuantity_spec. exact Hq.
  - exact Hp.
  - apply prices_finite. exact Hp.
  - destruct Hex as (p & Hin & Hd & Hm). exists p.
    rewrite isDiscountableProgramme_discountable. auto.
Qed.

Lemma infinity_sentinel_unreachable_witness :
  calculateDiscount four_certifications
  = Normal (3000%float, set_discount four_certifications 3000%float).
Proof.
  exact (proj1 (proj2 (proj2 (proj2 (proj2
    (infinity_sentinel_unreachable four_certifications eq_refl)))))).
Defined.

(* ===================================================================== *)
(** ** The bill *)
(* ===================================================================== *)

Lemma printBill_lines (c : GeekdemyCart) (b : Bill) (c' : GeekdemyCart) :
  cart_ok c ->
  printBill c = Normal (b, c') ->
  Spec.bill (invoice_of c) (appliedCoupon c) = Normal b /\ c' = stored c b.
Proof.
  intros Hok. rewrite (printBill_bill c Hok).
  destruct (Spec.bill (invoice_of c) (appliedCoupon c)) as [b'|e]; cbn;
    [|discriminate].
  intros H; inversion H; subst. split; reflexivity.
Qed.

Lemma bill_lines (inv : Spec.Invoice) (label : option string) (b : Bill) :
  Spec.bill inv label = Normal b ->
  SUB_TOTAL b = Spec.computeSubtotal inv
  /\ TOTAL_PRO_DISCOUNT b = Spec.computeMembershipDiscount inv
  /\ PRO_MEMBERSHIP_FEE_line b = Spec.computeMembershipFee inv
  /\ ENROLLMENT_FEE b = Spec.computeEnrollmentFee inv
  /\ fst (COUPON_DISCOUNT b) = label
  /\ Spec.computeDiscount inv = Normal (snd (COUPON_DISCOUNT b))
  /\ Spec.computeTotal inv = Normal (TOTAL b)
  /\ TOTAL b = (SUB_TOTAL b + ENROLLMENT_FEE b + PRO_MEMBERSHIP_FEE_line b
                - TOTAL_PRO_DISCOUNT b - snd (COUPON_DISCOUNT b))%float.
Proof.
  unfold Spec.bill, Spec.computeTotal.
  destruct (Spec.computeDiscount inv) as [d|e]; cbn; [|discriminate].
  intros H; inversion H; subst; cbn. conj_split; reflexivity.
Qed.

(** After subtotal, membership discount and enrollment fee have been
    calculated in this order, [calculateTotalFare] returns the total of the
    specification. *)
Lemma calculateTotalFare_in_order (c : GeekdemyCart) :
  cart_ok c ->
  (c3 <- calculate_all before_total c ;; fmap fst (calculateTotalFare c3))
  = Spec.computeTotal (invoice_of c).
Proof.
  intros Hok. pose proof Hok as (_ & Hes & _).
  unfold before_total. cbn [calculate_all calculate].
  rewrite calculateSubtotal_eq. cbn [bind snd].
  set (c1 := set_subtotal c _).
  assert (Hok1 : cart_ok c1) by exact Hok.
  rewrite (calculateProMembershipDiscount_ok c1 Hok1). cbn [bind snd].
  change (invoice_of c1) with (invoice_of c).
  set (c2 := set_proMembershipDiscount c1 _).
  rewrite (calculateEnrollmentFee_ok c2 Hes). cbn [bind snd].
  change (subtotal c2) with (Spec.computeSubtotal (invoice_of c)).
  fold (Spec.computeEnrollmentFee (invoice_of c)).
  set (c3 := set_enrollmentFee c2 _).
  assert (Hfresh : stored_fresh c3).
  { repeat split. apply (membershipFee_spec c), cart_ok_fee, Hok. }
  rewrite calculateTotalFare_rule, (discount_rule_fresh c3 Hfresh).
  rewrite (totalBeforeDiscount_fresh c3 Hfresh).
  change (invoice_of c3) with (invoice_of c).
  unfold Spec.computeTotal.
  destruct (Spec.computeDiscount (invoice_of c)); reflexivity.
Qed.

(** C2 as stated fails: with two degrees in the cart and nothing calculated
    yet, [calculateTotalFare] returns 0, while the sum over the items is
    10000 and so is the total of the specification. *)
Lemma total_reads_stored_amounts :
  run initial ["ADD_PROGRAMME DEGREE 2"] = Normal two_degrees
  /\ fmap fst (calculateTotalFare (cart two_degrees)) = Normal 0%float
  /\ Spec.computeSubtotal (invoice_of (cart two_degrees)) = 10000%float
  /\ Spec.computeTotal (invoice_of (cart two_degrees)) = Normal 10000%float
  /\ ~ total_from_state two_degrees.
Proof.
  conj_split; try reflexivity.
  unfold total_from_state. intros H.
  apply (f_equal (fun r => match r with
                           | Normal x => is_zero x
                           | Throw _ => false
                           end)) in H.
  vm_compute in H. discriminate.
Qed.

(** C2, amended: in every state of a run [calculateTotalFare] returns the
    stored subtotal + stored enrollment fee + membership fee - stored
    membership discount - discount, the discount being the one
    [calculateDiscount] returns from the same stored amounts;
    [calculateSubtotal] returns the sum over the items of unit price times
    quantity. Called after subtotal, membership discount and enrollment fee
    have been calculated, as [printBill] does, [calculateTotalFare] returns
    the total of the specification for the items, membership and strategy
    of the cart, and that is the total printed. *)
Theorem total_fare_formula (w : Process) :
  reachable w ->
  let c := cart w in
  calculateTotalFare c
  = (r <- calculateDiscount c ;;
     Normal ((subtotal c + enrollmentFee c + proMembershipFee c
              - proMembershipDiscount c - fst r)%float, snd r))
  /\ fmap fst (calculateSubtotal c)
     = Normal (Spec.sum (map (fun item =>
                                (Spec.unitPrice (type item) * quantity item)%float)
                           (programmes c)))
  /\ (c3 <- calculate_all before_total c ;; fmap fst (calculateTotalFare c3))
     = Spec.computeTotal (invoice_of c)
  /\ fmap (fun r => TOTAL (fst r)) (printBill c)
     = Spec.computeTotal (invoice_of c)
  /\ (forall s, discountStrategy c = Obj s ->
                exists b c', printBill c = Normal (b, c'))
  /\ forall b c',
       printBill c = Normal (b, c') ->
       SUB_TOTAL b
       = Spec.sum (map (fun item =>
                          (Spec.unitPrice (type item) * quantity item)%float)
                     (programmes c))
       /\ Spec.computeDiscount (invoice_of c) = Normal (snd (COUPON_DISCOUNT b))
       /\ TOTAL b = (SUB_TOTAL b + ENROLLMENT_FEE b + PRO_MEMBERSHIP_FEE_line b
                     - TOTAL_PRO_DISCOUNT b - snd (COUPON_DISCOUNT b))%float.
Proof.
  intros Hw c. destruct (reachable_ok w Hw) as [Hok _]. fold c in Hok.
  conj_split.
  - rewrite calculateTotalFare_rule, calculateDiscount_rule.
    destruct (discount_rule c); reflexivity.
  - rewrite calculateSubtotal_eq. reflexivity.
  - exact (calculateTotalFare_in_order c Hok).
  - rewrite (printBill_bill c Hok). unfold Spec.bill, Spec.computeTotal.
    destruct (Spec.computeDiscount (invoice_of c)); reflexivity.
  - intros s Hs. rewrite (printBill_bill c Hok).
    unfold Spec.bill, Spec.computeTotal, Spec.computeDiscount.
    change (Spec.discountPolicy (invoice_of c)) with (discountStrategy c).
    rewrite Hs.
    destruct (ge (Spec.discountableQuantity (invoice_of c)) 4%float);
      cbn; eauto.
  - intros b c' Hp. destruct (printBill_lines c b c' Hok Hp) as [Hb _].
    apply bill_lines in Hb.
    destruct Hb as (H1 & _ & _ & _ & _ & H6 & _ & H8). auto.
Qed.

Lemma total_fare_formula_witness :
  run initial ["ADD_PROGRAMME DIPLOMA 2"; "APPLY_COUPON deal_g20"]
  = Normal diploma_with_deal_g20
  /\ (c3 <- calculate_all before_total (cart diploma_with_deal_g20) ;;
      fmap fst (calculateTotalFare c3))
     = Normal 4400%float.
Proof.
  split; [reflexivity|].
  exact (proj1 (proj2 (proj2
    (total_fare_formula diploma_with_deal_g20
       (run_reachable
          ["ADD_PROGRAMME DIPLOMA 2"; "APPLY_COUPON deal_g20"]
          initial diploma_with_deal_g20 reachable_initial eq_refl))))).
Defined.

(** C9: the enrollment fee is 500 when the subtotal is below 6666.0 and 0
    otherwise, in particular 0 at 6666.00 itself; in a run this is the fee
    [calculateEnrollmentFee] returns for the stored subtotal, and the fee
    printed for the printed subtotal. *)
Theorem enrollment_fee_threshold (w : Process) (totalCost : number) :
  reachable w ->
  EnrollmentStrategy_calculateEnrollmentFee DefaultEnrollmentStrategy totalCost
  = (if (totalCost <? 6666.0)%float then 500%float else 0%float)
  /\ EnrollmentStrategy_calculateEnrollmentFee DefaultEnrollmentStrategy
       6666.00%float = 0%float
  /\ EnrollmentStrategy_calculateEnrollmentFee DefaultEnrollmentStrategy
       (next_down 6666.00%float) = 500%float
  /\ fmap fst (calculateEnrollmentFee (cart w))
     = Normal (if (subtotal (cart w) <? 6666.0)%float
               then 500%float else 0%float)
  /\ forall b c',
       printBill (cart w) = Normal (b, c') ->
       ENROLLMENT_FEE b
       = (if (SUB_TOTAL b <? 6666.0)%float then 500%float else 0%float).
Proof.
  intros Hw. destruct (reachable_ok w Hw) as [Hok _].
  conj_split; try reflexivity.
  - destruct Hok as (_ & He & _).
    rewrite (calculateEnrollmentFee_ok _ He). reflexivity.
  - intros b c' Hp. destruct (printBill_lines _ b c' Hok Hp) as [Hb _].
    apply bill_lines in Hb. destruct Hb as (H1 & _ & _ & H4 & _).
    rewrite H4, H1. reflexivity.
Qed.

Lemma enrollment_fee_threshold_witness :
  run initial ["ADD_PROGRAMME DEGREE 2"] = Normal two_degrees
  /\ fmap (fun r => (SUB_TOTAL (fst r), ENROLLMENT_FEE (fst r)))
       (printBill (cart two_degrees))
     = Normal (10000%float, 0%float)
  /\ forall b c',
       printBill (cart two_degrees) = Normal (b, c') ->
       ENROLLMENT_FEE b
       = (if (SUB_TOTAL b <? 6666.0)%float then 500%float else 0%float).
Proof.
  conj_split; try reflexivity.
  exact (proj2 (proj2 (proj2 (proj2
    (enrollment_fee_threshold two_degrees 6666%float
       (run_reachable ["ADD_PROGRAMME DEGREE 2"] initial two_degrees
          reachable_initial eq_refl)))))).
Defined.

(* ===================================================================== *)
(** ** Stored amounts and the order of the calculations *)
(* ===================================================================== *)

(** C4 as stated fails: the enrollment fee of a cart holding two degrees is
    500 when asked first and 0 when asked again after the subtotal, so the
    calculations are not pure functions of items, membership and strategy. *)
Lemma calculations_not_pure :
  run initial ["ADD_PROGRAMME DEGREE 2"] = Normal two_degrees
  /\ fmap fst (calculate CalculateEnrollmentFee (cart two_degrees))
     = Normal 500%float
  /\ fmap fst (r1 <- calculate CalculateEnrollmentFee (cart two_degrees) ;;
               r2 <- calculate CalculateSubtotal (snd r1) ;;
               calculate CalculateEnrollmentFee (snd r2))
     = Normal 0%float
  /\ ~ calculations_pure two_degrees.
Proof.
  conj_split; try reflexivity.
  intros H.
  pose proof (H CalculateEnrollmentFee [CalculateSubtotal]
                _ _ _ _ _ eq_refl eq_refl eq_refl) as E.
  apply (f_equal is_zero) in E. vm_compute in E. discriminate.
Qed.

Lemma invoice_of_frame (c c' : GeekdemyCart) :
  programmes c' = programmes c ->
  discountStrategy c' = discountStrategy c ->
  proMembershipFee c' = proMembershipFee c ->
  invoice_of c' = invoice_of c.
Proof. intros H1 H2 H3. unfold invoice_of. rewrite H1, H2, H3. reflexivity. Qed.

Lemma stored_ok (c : GeekdemyCart) (b : Bill) :
  cart_ok c ->
  Spec.bill (invoice_of c) (appliedCoupon c) = Normal b ->
  cart_ok (stored c b).
Proof.
  intros (Hd & He & Hp & Hf) Hb. apply bill_lines in Hb.
  destruct Hb as (_ & H2 & _).
  unfold cart_ok, stored. cbn. conj_split; try assumption.
  destruct Hf as [[Hz _]|Hf]; [left|right; exact Hf].
  split; [exact Hz|]. rewrite H2.
  unfold Spec.computeMembershipDiscount, invoice_of. cbn.
  rewrite Hz. reflexivity.
Qed.

(** C4, amended: [calculateSubtotal] and [calculateProMembershipDiscount]
    return values fixed by the items and the membership, but every
    calculation stores its result in the cart and [calculateEnrollmentFee],
    [calculateDiscount] and [calculateTotalFare] read the stored amounts.
    Run in the order of [printBill], they give the bill fixed by the items,
    the membership and the selected strategy: after any calculations made in
    between, [printBill] returns that same bill, and printing again returns
    it again and leaves the cart as it is. *)
Theorem bill_fixed_by_state (w : Process) (ks : list calculation)
  (c2 : GeekdemyCart) :
  reachable w ->
  calculate_all ks (cart w) = Normal c2 ->
  fmap fst (calculateSubtotal c2)
  = Normal (Spec.computeSubtotal (invoice_of (cart w)))
  /\ fmap fst (calculateProMembershipDiscount c2)
     = Normal (Spec.computeMembershipDiscount (invoice_of (cart w)))
  /\ fmap fst (printBill c2)
     = Spec.bill (invoice_of (cart w)) (appliedCoupon (cart w))
  /\ forall b c3, printBill c2 = Normal (b, c3) ->
                  printBill c3 = Normal (b, c3).
Proof.
  intros Hw Hks. destruct (reachable_ok w Hw) as [Hok _].
  apply calculate_all_frame in Hks.
  destruct Hks as (H1 & H2 & H3 & H4 & H5).
  pose proof (H5 Hok) as Hok2.
  rewrite <- (invoice_of_frame _ _ H1 H2 H3), <- H4.
  conj_split.
  - rewrite calculateSubtotal_eq. reflexivity.
  - rewrite (calculateProMembershipDiscount_ok c2 Hok2). reflexivity.
  - rewrite (printBill_bill c2 Hok2).
    destruct (Spec.bill (invoice_of c2) (appliedCoupon c2)); reflexivity.
  - intros b c3 Hp. destruct (printBill_lines c2 b c3 Hok2 Hp) as [Hb ->].
    pose proof (stored_ok c2 b Hok2 Hb) as Hok3.
    rewrite (printBill_bill _ Hok3).
    change (invoice_of (stored c2 b)) with (invoice_of c2).
    change (appliedCoupon (stored c2 b)) with (appliedCoupon c2).
    rewrite Hb. reflexivity.
Qed.

Lemma bill_fixed_by_state_witness :
  fmap fst (printBill (set_subtotal (cart two_degrees) 10000%float))
  = Spec.bill (invoice_of (cart two_degrees)) None.
Proof.
  exact (proj1 (proj2 (proj2
    (bill_fixed_by_state two_degrees [CalculateSubtotal] _
       (reachable_command initial "ADD_PROGRAMME DEGREE 2" two_degrees
          reachable_initial eq_refl)
       eq_refl)))).
Defined.

(* ===================================================================== *)
(** ** Coupons *)
(* ===================================================================== *)

Lemma length_map_string (f : ascii -> ascii) (s : string) :
  String.length (map_string f s) = String.length s.
Proof. induction s as [|a s IH]; cbn; [reflexivity|]. rewrite IH. reflexivity. Qed.

(** A key the object of strategies answers to has at least seven
    characters. *)
Lemma lookup_truthy_length (key : string) :
  truthy (discountStrategies_lookup key) = true -> 7 <= String.length key.
Proof.
  unfold discountStrategies_lookup.
  destruct (String.eqb key "deal_g20") eqn:E1.
  { apply String.eqb_eq in E1. subst. cbn. lia. }
  destruct (String.eqb key "deal_g5") eqn:E2.
  { apply String.eqb_eq in E2. subst. cbn. lia. }
  destruct (existsb (String.eqb key) Object_prototype_names) eqn:E3;
    [|discriminate].
  intros _. apply existsb_exists in E3. destruct E3 as (x & Hin & Hx).
  apply String.eqb_eq in Hx. subst x. unfold Object_prototype_names in Hin.
  simpl in Hin. in_cases Hin; cbn; lia.
Qed.

Lemma applyOtherCoupon_label (c c' : GeekdemyCart) (coupon : option string) :
  appliedCoupon c = None ->
  applyOtherCoupon c coupon = Normal c' ->
  appliedCoupon c' <> Some "B4G1".
Proof.
  intros Hnone. unfold applyOtherCoupon.
  destruct coupon as [coupon|]; [|discriminate].
  destruct (truthy (discountStrategies_lookup (toLowerCase coupon))) eqn:Ht;
    intros H; inversion H; subst.
  - cbn. intros E. inversion E as [E'].
    apply lookup_truthy_length in Ht.
    apply (f_equal String.length) in E'.
    unfold toLowerCase in Ht. unfold toUpperCase in E'.
    rewrite length_map_string in Ht, E'. cbn in E'. lia.
  - rewrite Hnone. discriminate.
Qed.

(** C5 as stated fails: with four degrees added and no coupon applied, the
    command [APPLY_COUPON DEAL_G20 now] carries an argument, yet the label
    becomes DEAL_G20 and the 20% strategy is installed. *)
Lemma b4g1_needs_two_tokens :
  run initial ["ADD_PROGRAMME DEGREE 4"] = Normal four_degrees
  /\ appliedCoupon (cart four_degrees) = None
  /\ ge (count four_degrees) MIN_DISCOUNTABLE_QUANTITY = true
  /\ fmap (fun w => (appliedCoupon (cart w), discountStrategy (cart w)))
       (processCommand four_degrees "APPLY_COUPON DEAL_G20 now")
     = Normal (Some "DEAL_G20", Obj DealG20Discount)
  /\ ~ b4g1_for_any_argument four_degrees ["APPLY_COUPON"; "DEAL_G20"; "now"].
Proof.
  conj_split; try reflexivity.
  intros H.
  destruct (H eq_refl eq_refl ltac:(discriminate)) as (w' & Ha & Hl & _).
  assert (E : applyCoupon four_degrees ["APPLY_COUPON"; "DEAL_G20"; "now"]
              = Normal {| cart := setAppliedCoupon
                                    (setDiscountStrategy (cart four_degrees)
                                       (Obj DealG20Discount))
                                    "DEAL_G20";
                          count := count four_degrees |})
    by reflexivity.
  rewrite E in Ha. inversion Ha; subst. discriminate Hl.
Qed.

(** C5, amended: with no coupon applied yet, APPLY_COUPON sets the label to
    B4G1 and leaves the discount strategy as it is exactly when the counter
    is at least 4 and the command has exactly one argument (two tokens),
    whatever the argument is; any other APPLY_COUPON hands its second token
    to [applyOtherCoupon] and never gives the label B4G1. The counter adds
    up the quantities of all added programmes whatever their type, while the
    quantity behind the bulk discount adds up those of the programmes of the
    three known types only. *)
Theorem bulk_coupon_threshold (w : Process) (tokens : list string) :
  reachable w ->
  appliedCoupon (cart w) = None ->
  count w = Spec.sum (map quantity (programmes (cart w)))
  /\ totalDiscountableQuantity (cart w)
     = Spec.sum (map quantity
                   (filter Spec.discountable (programmes (cart w))))
  /\ if ge (count w) 4%float && Nat.eqb (List.length tokens) 2 then
       applyCoupon w tokens
       = Normal {| cart := set_appliedCoupon (cart w) (Some "B4G1");
                   count := count w |}
       /\ discountStrategy (set_appliedCoupon (cart w) (Some "B4G1"))
          = discountStrategy (cart w)
     else
       applyCoupon w tokens
       = (c <- applyOtherCoupon (cart w) (nth_error tokens 1) ;;
          Normal {| cart := c; count := count w |})
       /\ forall w', applyCoupon w tokens = Normal w' ->
                     appliedCoupon (cart w') <> Some "B4G1".
Proof.
  intros Hw Hnone. destruct (reachable_ok w Hw) as [_ Hn].
  split; [exact Hn|].
  split; [exact (totalDiscountableQuantity_spec (cart w))|].
  unfold applyCoupon, getAppliedCoupon. rewrite Hnone. cbn [is_null andb].
  change MIN_DISCOUNTABLE_QUANTITY with 4%float.
  destruct (ge (count w) 4%float && Nat.eqb (List.length tokens) 2).
  - split; reflexivity.
  - split; [reflexivity|]. intros w'.
    destruct (applyOtherCoupon (cart w) (nth_error tokens 1)) as [c|e] eqn:Ho;
      cbn; [|discriminate].
    intros H; inversion H; subst. cbn.
    exact (applyOtherCoupon_label _ _ _ Hnone Ho).
Qed.

Lemma bulk_coupon_threshold_witness :
  applyCoupon four_unknown ["APPLY_COUPON"; "DEAL_G20"]
  = Normal {| cart := set_appliedCoupon (cart four_unknown) (Some "B4G1");
              count := 4%float |}
  /\ count four_unknown = 4%float
  /\ totalDiscountableQuantity (cart four_unknown) = 0%float.
Proof.
  pose proof (bulk_coupon_threshold four_unknown ["APPLY_COUPON"; "DEAL_G20"]
                (reachable_command initial "ADD_PROGRAMME WORKSHOP 4"
                   four_unknown reachable_initial eq_refl)
                eq_refl) as (Hcount & Hquantity & Happly & _).
  conj_split; [exact Happly|exact Hcount|exact Hquantity].
Defined.

(** Four units of an unknown programme reach the coupon threshold but not
    the bulk discount: the label is B4G1 and the discount is 0. *)
Example unknown_counts_for_coupon_only :
  main "ADD_PROGRAMME WORKSHOP 4
APPLY_COUPON DEAL_G20"
  = Normal (mkBill 0 0 0 500 (Some "B4G1", 0%float) 500)%float.
Proof. reflexivity. Qed.

Lemma addProgramme_coupon (w : Process) (tokens : list string) :
  appliedCoupon (cart (addProgramme w tokens)) = appliedCoupon (cart w)
  /\ discountStrategy (cart (addProgramme w tokens))
     = discountStrategy (cart w).
Proof.
  unfold addProgramme.
  destruct (Nat.eqb (List.length tokens) 3); split; reflexivity.
Qed.

Lemma applyCoupon_set (w : Process) (tokens : list string) (label : string) :
  appliedCoupon (cart w) = Some label -> applyCoupon w tokens = Normal w.
Proof.
  intros H. unfold applyCoupon, getAppliedCoupon. rewrite H. reflexivity.
Qed.

Lemma processCommand_coupon_set (w w' : Process) (command label : string) :
  appliedCoupon (cart w) = Some label ->
  processCommand w command = Normal w' ->
  appliedCoupon (cart w') = Some label
  /\ discountStrategy (cart w') = discountStrategy (cart w).
Proof.
  intros Hl H. apply processCommand_cases in H.
  destruct H as [->|[(_ & c & Hp & ->)|[Ha| ->]]].
  - destruct (addProgramme_coupon w (split " " command)) as [H1 H2].
    rewrite H1, H2. auto.
  - apply applyProMembershipCoupon_frame in Hp.
    destruct Hp as (_ & H2 & _ & H4 & _). cbn. rewrite H2, H4. auto.
  - rewrite (applyCoupon_set w _ label Hl) in Ha. inversion Ha; subst. auto.
  - auto.
Qed.

(** C6: once a coupon label is set, every later APPLY_COUPON leaves the
    whole state as it is, and no command of the rest of the run changes the
    label or the discount strategy. *)
Theorem coupon_applied_once (w : Process) (label : string) :
  appliedCoupon (cart w) = Some label ->
  (forall tokens, applyCoupon w tokens = Normal w)
  /\ forall lines w',
       run w lines = Normal w' ->
       appliedCoupon (cart w') = Some label
       /\ discountStrategy (cart w') = discountStrategy (cart w).
Proof.
  intros Hl. split.
  - intros tokens. exact (applyCoupon_set w tokens label Hl).
  - intros lines. revert w Hl.
    induction lines as [|line lines IH]; intros w Hl w'; cbn [run].
    + intros H; inversion H; subst. auto.
    + destruct (processCommand w line) as [w1|e] eqn:Hp; cbn; [|discriminate].
      intros Hr.
      destruct (processCommand_coupon_set _ _ _ _ Hl Hp) as [H1 H2].
      destruct (IH w1 H1 w' Hr) as [H3 H4]. rewrite H4, H2. auto.
Qed.

Lemma coupon_applied_once_witness :
  run initial ["ADD_PROGRAMME DIPLOMA 2"; "APPLY_COUPON deal_g20"]
  = Normal diploma_with_deal_g20
  /\ applyCoupon diploma_with_deal_g20 ["APPLY_COUPON"; "DEAL_G5"]
     = Normal diploma_with_deal_g20.
Proof.
  split; [reflexivity|].
  exact (proj1 (coupon_applied_once diploma_with_deal_g20 "DEAL_G20" eq_refl)
           ["APPLY_COUPON"; "DEAL_G5"]).
Defined.

(* ===================================================================== *)
(** ** Membership *)
(* ===================================================================== *)

Lemma addProgramme_fee (w : Process) (tokens : list string) :
  proMembershipFee (cart (addProgramme w tokens)) = proMembershipFee (cart w).
Proof.
  unfold addProgramme. destruct (Nat.eqb (List.length tokens) 3); reflexivity.
Qed.

(** The fee after a command: 200 after PRO_MEMBERSHIP, unchanged after any
    other command. *)
Lemma processCommand_fee (w w' : Process) (command : string) :
  processCommand w command = Normal w' ->
  proMembershipFee (cart w')
  = if is_PRO_MEMBERSHIP command then PRO_MEMBERSHIP_FEE
    else proMembershipFee (cart w).
Proof.
  unfold processCommand, is_PRO_MEMBERSHIP.
  destruct (split " " command) as [|t0 ts] eqn:Hs.
  - intros H; inversion H; reflexivity.
  - destruct (String.eqb t0 "ADD_PROGRAMME") eqn:E1.
    { apply String.eqb_eq in E1. subst t0. cbn [String.eqb Ascii.eqb Bool.eqb].
      intros H; inversion H. apply addProgramme_fee. }
    destruct (String.eqb t0 "PRO_MEMBERSHIP") eqn:E2.
    { destruct (applyProMembershipCoupon (cart w)) as [c|e] eqn:Hp; cbn;
        [|discriminate].
      intros H; inversion H. cbn.
      apply applyProMembershipCoupon_frame in Hp. apply Hp. }
    destruct (String.eqb t0 "APPLY_COUPON").
    { intros H. apply applyCoupon_frame in H. apply H. }
    destruct (String.eqb t0 "PRINT_BILL"); intros H; inversion H; reflexivity.
Qed.

Lemma run_fee (lines : list string) (w w' : Process) :
  run w lines = Normal w' ->
  proMembershipFee (cart w')
  = if existsb is_PRO_MEMBERSHIP lines then PRO_MEMBERSHIP_FEE
    else proMembershipFee (cart w).
Proof.
  revert w; induction lines as [|line lines IH]; intros w; cbn [run existsb].
  - intros H; inversion H; reflexivity.
  - destruct (processCommand w line) as [w1|e] eqn:Hp; cbn [bind];
      [|discriminate].
    intros Hr. rewrite (IH w1 Hr). apply processCommand_fee in Hp.
    destruct (existsb is_PRO_MEMBERSHIP lines).
    + rewrite orb_true_r. reflexivity.
    + rewrite orb_false_r. exact Hp.
Qed.

(** C7: in a run the membership fee is 200 if PRO_MEMBERSHIP was given at
    least once, however many times, and 0 if it never was; activation
    succeeds, and activating again leaves the fee at 200 and the bill as it
    was; no later command and no calculation brings the fee back, and the
    fee printed is the fee of the cart. *)
Theorem membership_fee_idempotent (lines : list string) (w : Process) :
  run initial lines = Normal w ->
  proMembershipFee (cart w)
  = (if existsb is_PRO_MEMBERSHIP lines then 200%float else 0%float)
  /\ (exists c1 c2,
        applyProMembershipCoupon (cart w) = Normal c1
        /\ proMembershipFee c1 = 200%float
        /\ applyProMembershipCoupon c1 = Normal c2
        /\ proMembershipFee c2 = 200%float
        /\ fmap fst (printBill c2) = fmap fst (printBill c1))
  /\ (forall more w',
        run w more = Normal w' ->
        proMembershipFee (cart w) = 200%float ->
        proMembershipFee (cart w') = 200%float)
  /\ (forall ks c',
        calculate_all ks (cart w) = Normal c' ->
        proMembershipFee c' = proMembershipFee (cart w))
  /\ fmap (fun r => PRO_MEMBERSHIP_FEE_line (fst r)) (printBill (cart w))
     = fmap (fun _ => proMembershipFee (cart w)) (printBill (cart w)).
Proof.
  intros Hr.
  pose proof (run_reachable _ _ _ reachable_initial Hr) as Hw.
  destruct (reachable_ok w Hw) as [Hok _].
  conj_split.
  - exact (run_fee lines initial w Hr).
  - destruct (applyProMembershipCoupon_returns _ Hok) as [c1 H1].
    pose proof (applyProMembershipCoupon_frame _ _ H1) as (_ & _ & F1 & _ & K1).
    destruct (applyProMembershipCoupon_returns _ (K1 Hok)) as [c2 H2].
    pose proof (applyProMembershipCoupon_frame _ _ H2)
      as (P2 & D2 & F2 & A2 & K2).
    exists c1, c2. conj_split; auto.
    rewrite (printBill_bill c2 (K2 (K1 Hok))), (printBill_bill c1 (K1 Hok)).
    rewrite (invoice_of_frame c1 c2 P2 D2 (eq_trans F2 (eq_sym F1))), A2.
    destruct (Spec.bill (invoice_of c1) (appliedCoupon c1)); reflexivity.
  - intros more w' Hm Hfee. rewrite (run_fee more w w' Hm), Hfee.
    destruct (existsb is_PRO_MEMBERSHIP more); reflexivity.
  - intros ks c' Hks. apply calculate_all_frame in Hks. apply Hks.
  - rewrite (printBill_bill _ Hok).
    destruct (Spec.bill (invoice_of (cart w)) (appliedCoupon (cart w)))
      as [b|e] eqn:Hb; [|reflexivity].
    cbn. apply bill_lines in Hb. destruct Hb as (_ & _ & H3 & _).
    rewrite H3. symmetry. f_equal.
    apply membershipFee_spec, cart_ok_fee, Hok.
Qed.

Lemma membership_fee_idempotent_witness :
  proMembershipFee (cart member_twice) = 200%float.
Proof.
  exact (proj1 (membership_fee_idempotent
                  ["PRO_MEMBERSHIP"; "PRO_MEMBERSHIP"] member_twice eq_refl)).
Defined.

(** C8: in every state of a run, [calculateProMembershipDiscount] returns
    the sum, over the items the cart holds at the call, of discount rate
    times cost when the membership fee has been charged, and 0 when it has
    not; the printed membership discount is that value. *)
Theorem membership_discount_recomputed (w : Process) :
  reachable w ->
  let c := cart w in
  let v := if gt (proMembershipFee c) 0%float
           then Spec.sum (map (fun item =>
                                 (Spec.discountRate (type item)
                                  * Spec.cost item)%float)
                            (programmes c))
           else 0%float in
  calculateProMembershipDiscount c
  = Normal (v, set_proMembershipDiscount c v)
  /\ (proMembershipFee c = 0%float \/ proMembershipFee c = 200%float)
  /\ fmap (fun r => TOTAL_PRO_DISCOUNT (fst r)) (printBill c)
     = fmap (fun _ => v) (printBill c).
Proof.
  intros Hw c v. destruct (reachable_ok w Hw) as [Hok _]. fold c in Hok.
  conj_split.
  - exact (calculateProMembershipDiscount_ok c Hok).
  - exact (cart_ok_fee c Hok).
  - rewrite (printBill_bill _ Hok).
    destruct (Spec.bill (invoice_of c) (appliedCoupon c)) as [b|e] eqn:Hb;
      [|reflexivity].
    cbn. apply bill_lines in Hb. destruct Hb as (_ & H2 & _).
    rewrite H2. reflexivity.
Qed.

Lemma membership_discount_recomputed_witness :
  run initial ["PRO_MEMBERSHIP"; "ADD_PROGRAMME DEGREE 1"]
  = Normal member_then_degree
  /\ fmap fst (calculateProMembershipDiscount (cart member_then_degree))
     = Normal 150%float.
Proof.
  split; [reflexivity|].
  exact (f_equal (fmap fst)
           (proj1 (membership_discount_recomputed member_then_degree
                     (run_reachable
                        ["PRO_MEMBERSHIP"; "ADD_PROGRAMME DEGREE 1"]
                        initial member_then_degree
                        reachable_initial eq_refl)))).
Defined.

(* ===================================================================== *)
(** ** APPLY_COUPON without a token *)
(* ===================================================================== *)

(** Whatever the counter, a lone APPLY_COUPON throws while no coupon is
    applied; with a token, [applyOtherCoupon] always returns. *)
Lemma applyCoupon_no_token (w : Process) :
  appliedCoupon (cart w) = None ->
  applyCoupon w ["APPLY_COUPON"] = Throw TypeError.
Proof.
  intros H. unfold applyCoupon, getAppliedCoupon. rewrite H. cbn.
  rewrite andb_false_r. reflexivity.
Qed.

Lemma applyOtherCoupon_token (c : GeekdemyCart) (coupon : string) :
  exists c', applyOtherCoupon c (Some coupon) = Normal c'.
Proof.
  unfold applyOtherCoupon.
  destruct (truthy (discountStrategies_lookup (toLowerCase coupon))); eauto.
Qed.

(** C3: an APPLY_COUPON command with no token, given while no coupon is
    applied, ends in a [TypeError]: [applyOtherCoupon] calls [toLowerCase]
    on [undefined]. *)
Theorem apply_coupon_without_token_throws :
  processCommand initial "APPLY_COUPON" = Throw TypeError
  /\ main "APPLY_COUPON" = Throw TypeError
  /\ main "ADD_PROGRAMME DEGREE 4
APPLY_COUPON" = Throw TypeError.
Proof. conj_split; reflexivity. Qed.

(** A token naming a member every object inherits is taken for a strategy:
    the label is set, and the bill fails when the strategy is called. *)
Example inherited_name_taken_for_strategy :
  fmap (fun w => (appliedCoupon (cart w), discountStrategy (cart w)))
    (processCommand initial "APPLY_COUPON constructor")
  = Normal (Some "CONSTRUCTOR", Inherited)
  /\ main "APPLY_COUPON constructor" = Throw TypeError.
Proof. split; reflexivity. Qed.

(* ===================================================================== *)
(** ** Commands on the view *)
(* ===================================================================== *)

(** A command acts on the view of the process as [View_step] says, whatever
    amounts the cart has stored. *)
Lemma processCommand_observe (w : Process) (command : string) :
  cart_ok (cart w) ->
  fmap observe (processCommand w command) = View_step (observe w) command.
Proof.
  intros Hok. unfold processCommand, View_step.
  destruct (split " " command) as [|t0 ts]; [reflexivity|].
  destruct (String.eqb t0 "ADD_PROGRAMME").
  { unfold addProgramme.
    destruct (Nat.eqb (List.length (t0 :: ts)) 3); reflexivity. }
  destruct (String.eqb t0 "PRO_MEMBERSHIP").
  { unfold applyProMembershipCoupon.
    rewrite (calculateProMembershipDiscount_ok _ Hok). reflexivity. }
  destruct (String.eqb t0 "APPLY_COUPON");
    [|destruct (String.eqb t0 "PRINT_BILL"); reflexivity].
  unfold applyCoupon, getAppliedCoupon.
  change (view_coupon (observe w)) with (appliedCoupon (cart w)).
  change (view_count (observe w)) with (count w).
  destruct (is_null (appliedCoupon (cart w))
            && ge (count w) MIN_DISCOUNTABLE_QUANTITY
            && Nat.eqb (List.length (t0 :: ts)) 2); [reflexivity|].
  destruct (is_null (appliedCoupon (cart w))); [|reflexivity].
  unfold applyOtherCoupon.
  destruct (nth_error (t0 :: ts) 1) as [coupon|]; [|reflexivity].
  destruct (truthy (discountStrategies_lookup (toLowerCase coupon)));
    reflexivity.
Qed.

Lemma run_observe (lines : list string) (w : Process) :
  process_ok w ->
  fmap observe (run w lines) = View_run (observe w) lines.
Proof.
  revert w; induction lines as [|line lines IH]; intros w Hok;
    cbn [run View_run]; [reflexivity|].
  rewrite <- (processCommand_observe w line (proj1 Hok)).
  destruct (processCommand w line) as [w1|e] eqn:Hp; [|reflexivity].
  cbn [fmap bind]. apply IH. exact (processCommand_ok _ _ _ Hp Hok).
Qed.

Lemma run_ok (lines : list string) (w w' : Process) :
  process_ok w -> run w lines = Normal w' -> process_ok w'.
Proof.
  revert w; induction lines as [|line lines IH]; intros w Hok; cbn [run].
  - intros H; inversion H; subst; exact Hok.
  - destruct (processCommand w line) as [w1|e] eqn:Hp; cbn; [|discriminate].
    apply IH. exact (processCommand_ok _ _ _ Hp Hok).
Qed.

Lemma printBill_view (w : Process) :
  cart_ok (cart w) ->
  fmap fst (printBill (cart w)) = View_bill (observe w).
Proof.
  intros Hok. rewrite (printBill_bill _ Hok). unfold View_bill.
  change (View_invoice (observe w)) with (invoice_of (cart w)).
  change (view_coupon (observe w)) with (appliedCoupon (cart w)).
  destruct (Spec.bill (invoice_of (cart w)) (appliedCoupon (cart w)));
    reflexivity.
Qed.

Lemma bill_after_view (lines : list string) (w : Process) :
  process_ok w ->
  bill_after w lines = (v <- View_run (observe w) lines ;; View_bill v).
Proof.
  intros Hok. unfold bill_after. rewrite <- (run_observe lines w Hok).
  destruct (run w lines) as [w'|e] eqn:Hr; [|reflexivity].
  cbn [fmap bind]. apply printBill_view. exact (proj1 (run_ok _ _ _ Hok Hr)).
Qed.

(** The stored amounts never matter: two states of a run with the same
    programmes, strategy, label, fee and counter give, after the same
    further lines, the same bill or the same error. *)
Theorem bill_after_same_view (w1 w2 : Process) (lines : list string) :
  reachable w1 -> reachable w2 ->
  observe w1 = observe w2 ->
  bill_after w1 lines = bill_after w2 lines.
Proof.
  intros H1 H2 Hobs.
  rewrite (bill_after_view lines w1 (reachable_ok _ H1)).
  rewrite (bill_after_view lines w2 (reachable_ok _ H2)).
  rewrite Hobs. reflexivity.
Qed.

(** *** Where PRO_MEMBERSHIP stands in the file *)

Lemma View_step_PRO_MEMBERSHIP (v : View) (command : string) :
  is_PRO_MEMBERSHIP command = true ->
  View_step v command = Normal (View_charge v).
Proof.
  unfold is_PRO_MEMBERSHIP, View_step.
  destruct (split " " command) as [|t0 ts]; [discriminate|].
  intros H. destruct (String.eqb t0 "ADD_PROGRAMME") eqn:E.
  - apply String.eqb_eq in E. subst t0. discriminate.
  - rewrite H. reflexivity.
Qed.

(** Charging the fee before or after a command comes to the same. *)
Lemma View_step_charge (v : View) (command : string) :
  View_step (View_charge v) command = fmap View_charge (View_step v command).
Proof.
  unfold View_step.
  destruct (split " " command) as [|t0 ts]; [reflexivity|].
  destruct (String.eqb t0 "ADD_PROGRAMME").
  { destruct (Nat.eqb (List.length (t0 :: ts)) 3); reflexivity. }
  destruct (String.eqb t0 "PRO_MEMBERSHIP"); [reflexivity|].
  destruct (String.eqb t0 "APPLY_COUPON"); [|reflexivity].
  change (view_coupon (View_charge v)) with (view_coupon v).
  change (view_count (View_charge v)) with (view_count v).
  destruct (is_null (view_coupon v)
            && ge (view_count v) MIN_DISCOUNTABLE_QUANTITY
            && Nat.eqb (List.length (t0 :: ts)) 2); [reflexivity|].
  destruct (is_null (view_coupon v)); [|reflexivity].
  destruct (nth_error (t0 :: ts) 1) as [coupon|]; [|reflexivity].
  destruct (truthy (discountStrategies_lookup (toLowerCase coupon)));
    reflexivity.
Qed.

Lemma View_run_charge (lines : list string) (v : View) :
  View_run (View_charge v) lines = fmap View_charge (View_run v lines).
Proof.
  revert v; induction lines as [|line lines IH]; intros v;
    cbn [View_run]; [reflexivity|].
  rewrite View_step_charge.
  destruct (View_step v line) as [v1|e]; [|reflexivity].
  cbn [fmap bind]. apply IH.
Qed.

Lemma View_run_app (l1 l2 : list string) (v : View) :
  View_run v (l1 ++ l2) = (v1 <- View_run v l1 ;; View_run v1 l2).
Proof.
  revert v; induction l1 as [|line l1 IH]; intros v; cbn [View_run app];
    [reflexivity|].
  destruct (View_step v line) as [v1|e]; [|reflexivity].
  cbn [bind]. apply IH.
Qed.

(** The bill does not depend on where a PRO_MEMBERSHIP line stands: moved to
    the front of the lines before it, it gives the same bill, or the same
    error. *)
Theorem PRO_MEMBERSHIP_anywhere (w : Process) (command : string)
  (before after : list string) :
  reachable w ->
  is_PRO_MEMBERSHIP command = true ->
  bill_after w (before ++ command :: after)
  = bill_after w (command :: before ++ after).
Proof.
  intros Hw Hpro. pose proof (reachable_ok w Hw) as Hok.
  rewrite !(bill_after_view _ w Hok). f_equal.
  rewrite View_run_app. cbn [View_run].
  rewrite (View_step_PRO_MEMBERSHIP _ _ Hpro). cbn [bind].
  rewrite View_run_app, View_run_charge.
  destruct (View_run (observe w) before) as [v1|e]; [|reflexivity].
  cbn [fmap bind]. rewrite (View_step_PRO_MEMBERSHIP _ _ Hpro). reflexivity.
Qed.

(** *** Lines without effect, and the programmes a run adds *)

Lemma processCommand_ignored (w : Process) (command : string) :
  ignored command = true -> processCommand w command = Normal w.
Proof.
  unfold ignored, processCommand, addProgramme.
  destruct (split " " command) as [|t0 ts]; [reflexivity|].
  destruct (String.eqb t0 "ADD_PROGRAMME").
  { destruct (Nat.eqb (List.length (t0 :: ts)) 3); cbn [negb]; intros H;
      [discriminate H|reflexivity]. }
  destruct (String.eqb t0 "PRO_MEMBERSHIP"); cbn [negb orb]; intros H;
    [discriminate H|].
  destruct (String.eqb t0 "APPLY_COUPON"); cbn [negb orb] in H;
    [discriminate H|].
  destruct (String.eqb t0 "PRINT_BILL"); reflexivity.
Qed.

(** Blank lines, PRINT_BILL, unknown commands and ADD_PROGRAMME lines
    without exactly three tokens can be struck from the input, wherever they
    stand: the run ends in the same state, or in the same error. *)
Theorem ignored_lines_dropped (w : Process) (lines : list string) :
  run w (filter (fun line => negb (ignored line)) lines) = run w lines.
Proof.
  revert w; induction lines as [|line lines IH]; intros w; [reflexivity|].
  cbn [filter]. destruct (ignored line) eqn:Hi; cbn [negb run].
  - rewrite (processCommand_ignored w line Hi). cbn [bind]. apply IH.
  - destruct (processCommand w line) as [w1|e]; [|reflexivity].
    cbn [bind]. apply IH.
Qed.

Lemma processCommand_programmes (w w' : Process) (command : string) :
  processCommand w command = Normal w' ->
  programmes (cart w')
  = (programmes (cart w)
     ++ (if is_ADD_PROGRAMME command then [programme_of command] else []))%list
  /\ count w'
     = (if is_ADD_PROGRAMME command
        then (count w + quantity (programme_of command))%float
        else count w).
Proof.
  unfold processCommand, is_ADD_PROGRAMME, programme_of.
  destruct (split " " command) as [|t0 ts] eqn:Hs.
  - intros H; inversion H; subst. rewrite app_nil_r. auto.
  - destruct (String.eqb t0 "ADD_PROGRAMME") eqn:E1; cbn [andb].
    { unfold addProgramme.
      destruct (Nat.eqb (List.length (t0 :: ts)) 3);
        intros H; inversion H; subst; cbn; [|rewrite app_nil_r]; auto. }
    rewrite app_nil_r.
    destruct (String.eqb t0 "PRO_MEMBERSHIP").
    { destruct (applyProMembershipCoupon (cart w)) as [c|e] eqn:Hp; cbn;
        [|discriminate].
      intros H; inversion H; subst. cbn.
      apply applyProMembershipCoupon_frame in Hp. split; [apply Hp|reflexivity]. }
    destruct (String.eqb t0 "APPLY_COUPON").
    { intros H. apply applyCoupon_frame in H.
      destruct H as (H1 & _ & H3 & _). auto. }
    destruct (String.eqb t0 "PRINT_BILL"); intros H; inversion H; auto.
Qed.

(** Programmes are only ever appended: after a run the cart holds the
    programmes it held before, followed by one programme for each
    three-token ADD_PROGRAMME line, in the order of the lines, with the type
    looked up from the second token and the quantity parsed from the third;
    the counter has grown by their quantities, added in that order. *)
Theorem run_programmes (lines : list string) (w w' : Process) :
  run w lines = Normal w' ->
  programmes (cart w')
  = (programmes (cart w)
     ++ map programme_of (filter is_ADD_PROGRAMME lines))%list
  /\ count w'
     = fold_left add
         (map (fun line => quantity (programme_of line))
            (filter is_ADD_PROGRAMME lines))
         (count w).
Proof.
  revert w; induction lines as [|line lines IH]; intros w; cbn [run].
  - intros H; inversion H; subst. cbn. rewrite app_nil_r. auto.
  - destruct (processCommand w line) as [w1|e] eqn:Hp; cbn [bind];
      [|discriminate].
    intros Hr. destruct (IH w1 Hr) as [IH1 IH2].
    destruct (processCommand_programmes _ _ _ Hp) as [H1 H2].
    rewrite IH1, IH2, H1, H2. cbn [filter].
    destruct (is_ADD_PROGRAMME line); cbn [map fold_left].
    + rewrite <- app_assoc. auto.
    + rewrite app_nil_r. auto.
Qed.

(* ===================================================================== *)
(** ** Coupon names *)
(* ===================================================================== *)

Lemma upper_lower_char (c : ascii) : upper_char (lower_char c) = upper_char c.
Proof.
  destruct c as [[] [] [] [] [] [] [] []]; reflexivity.
Qed.

Lemma lower_lower_char (c : ascii) : lower_char (lower_char c) = lower_char c.
Proof.
  destruct c as [[] [] [] [] [] [] [] []]; reflexivity.
Qed.

Lemma toUpperCase_toLowerCase (s : string) :
  toUpperCase (toLowerCase s) = toUpperCase s.
Proof.
  induction s as [|c s IH]; cbn; [reflexivity|].
  rewrite upper_lower_char. f_equal. exact IH.
Qed.

Lemma toLowerCase_idempotent (s : string) :
  toLowerCase (toLowerCase s) = toLowerCase s.
Proof.
  induction s as [|c s IH]; cbn; [reflexivity|].
  rewrite lower_lower_char. f_equal. exact IH.
Qed.

(** A lower-cased token is not a name with a capital in it. *)
Lemma lowered_neq (s name : string) :
  toLowerCase name <> name -> String.eqb (toLowerCase s) name = false.
Proof.
  intros Hn. apply String.eqb_neq. intros E. apply Hn.
  rewrite <- E. apply toLowerCase_idempotent.
Qed.

Lemma lookup_lowered (coupon : string) :
  discountStrategies_lookup (toLowerCase coupon)
  = if String.eqb (toLowerCase coupon) "deal_g20" then Obj DealG20Discount
    else if String.eqb (toLowerCase coupon) "deal_g5" then Obj DealG5Discount
    else if String.eqb (toLowerCase coupon) "constructor" then Inherited
    else if String.eqb (toLowerCase coupon) "__proto__" then Inherited
    else Null.
Proof.
  unfold discountStrategies_lookup, Object_prototype_names.
  cbn [existsb].
  rewrite !(lowered_neq coupon "__defineGetter__") by discriminate.
  rewrite !(lowered_neq coupon "__defineSetter__") by discriminate.
  rewrite !(lowered_neq coupon "hasOwnProperty") by discriminate.
  rewrite !(lowered_neq coupon "__lookupGetter__") by discriminate.
  rewrite !(lowered_neq coupon "__lookupSetter__") by discriminate.
  rewrite !(lowered_neq coupon "isPrototypeOf") by discriminate.
  rewrite !(lowered_neq coupon "propertyIsEnumerable") by discriminate.
  rewrite !(lowered_neq coupon "toString") by discriminate.
  rewrite !(lowered_neq coupon "valueOf") by discriminate.
  rewrite !(lowered_neq coupon "toLocaleString") by discriminate.
  cbn [orb].
  destruct (String.eqb (toLowerCase coupon) "deal_g20"); [reflexivity|].
  destruct (String.eqb (toLowerCase coupon) "deal_g5"); [reflexivity|].
  destruct (String.eqb (toLowerCase coupon) "constructor"); [reflexivity|].
  destruct (String.eqb (toLowerCase coupon) "__proto__"); reflexivity.
Qed.

Lemma upper_of_lowered (coupon key : string) :
  String.eqb (toLowerCase coupon) key = true ->
  toUpperCase coupon = toUpperCase key.
Proof.
  intros E. apply String.eqb_eq in E. rewrite <- E.
  symmetry. apply toUpperCase_toLowerCase.
Qed.

(** Coupon names are matched whatever their letter case, and the label kept
    is the upper-case name: a token is taken for DEAL_G20 or DEAL_G5 when it
    is one of them up to case; it is taken for a strategy, wrongly, when it
    is [constructor] or [__proto__] up to case; any other token leaves the
    cart as it is. *)
Theorem applyOtherCoupon_by_name (c : GeekdemyCart) (coupon : string) :
  let key := toLowerCase coupon in
  applyOtherCoupon c (Some coupon)
  = Normal
      (if String.eqb key "deal_g20" then
         setAppliedCoupon (setDiscountStrategy c (Obj DealG20Discount))
           "DEAL_G20"
       else if String.eqb key "deal_g5" then
         setAppliedCoupon (setDiscountStrategy c (Obj DealG5Discount))
           "DEAL_G5"
       else if String.eqb key "constructor" then
         setAppliedCoupon (setDiscountStrategy c Inherited) "CONSTRUCTOR"
       else if String.eqb key "__proto__" then
         setAppliedCoupon (setDiscountStrategy c Inherited) "__PROTO__"
       else c).
Proof.
  intros key. subst key. unfold applyOtherCoupon. cbv zeta.
  rewrite (lookup_lowered coupon).
  destruct (String.eqb (toLowerCase coupon) "deal_g20") eqn:E1.
  { cbn [truthy]. rewrite (upper_of_lowered _ _ E1). reflexivity. }
  destruct (String.eqb (toLowerCase coupon) "deal_g5") eqn:E2.
  { cbn [truthy]. rewrite (upper_of_lowered _ _ E2). reflexivity. }
  destruct (String.eqb (toLowerCase coupon) "constructor") eqn:E3.
  { cbn [truthy]. rewrite (upper_of_lowered _ _ E3). reflexivity. }
  destruct (String.eqb (toLowerCase coupon) "__proto__") eqn:E4.
  { cbn [truthy]. rewrite (upper_of_lowered _ _ E4). reflexivity. }
  reflexivity.
Qed.

Lemma applyOtherCoupon_states (c c' : GeekdemyCart) (coupon : option string) :
  In (appliedCoupon c, discountStrategy c) coupon_states ->
  applyOtherCoupon c coupon = Normal c' ->
  In (appliedCoupon c', discountStrategy c') coupon_states.
Proof.
  intros Hin. destruct coupon as [coupon|]; [|discriminate].
  unfold applyOtherCoupon. rewrite (lookup_lowered coupon).
  unfold coupon_states.
  destruct (String.eqb (toLowerCase coupon) "deal_g20") eqn:E1.
  { intros H; inversion H; subst. cbn.
    rewrite (upper_of_lowered _ _ E1). cbn. auto 7. }
  destruct (String.eqb (toLowerCase coupon) "deal_g5") eqn:E2.
  { intros H; inversion H; subst. cbn.
    rewrite (upper_of_lowered _ _ E2). cbn. auto 7. }
  destruct (String.eqb (toLowerCase coupon) "constructor") eqn:E3.
  { intros H; inversion H; subst. cbn.
    rewrite (upper_of_lowered _ _ E3). cbn. auto 7. }
  destruct (String.eqb (toLowerCase coupon) "__proto__") eqn:E4.
  { intros H; inversion H; subst. cbn.
    rewrite (upper_of_lowered _ _ E4). cbn. auto 7. }
  intros H; inversion H; subst. exact Hin.
Qed.

Lemma applyCoupon_states (w w' : Process) (tokens : list string) :
  In (appliedCoupon (cart w), discountStrategy (cart w)) coupon_states ->
  applyCoupon w tokens = Normal w' ->
  In (appliedCoupon (cart w'), discountStrategy (cart w')) coupon_states.
Proof.
  intros Hin. unfold applyCoupon, getAppliedCoupon.
  destruct (appliedCoupon (cart w)) as [label|] eqn:Hl; cbn [is_null andb].
  - intros H; inversion H; subst. rewrite Hl. exact Hin.
  - destruct (ge (count w) MIN_DISCOUNTABLE_QUANTITY
              && Nat.eqb (List.length tokens) 2).
    + intros H; inversion H; subst. cbn.
      unfold coupon_states in *. simpl in Hin.
      destruct Hin as [Hin|Hin]; [|in_cases Hin; discriminate].
      inversion Hin as [Hs]. right; left. reflexivity.
    + destruct (applyOtherCoupon (cart w) (nth_error tokens 1)) as [c|e] eqn:Ho;
        cbn; [|discriminate].
      intros H; inversion H; subst. cbn.
      apply (applyOtherCoupon_states (cart w) c (nth_error tokens 1));
        [|exact Ho].
      rewrite Hl. exact Hin.
Qed.

Lemma reachable_coupon_states (w : Process) :
  reachable w ->
  In (appliedCoupon (cart w), discountStrategy (cart w)) coupon_states.
Proof.
  induction 1 as [|w command w' _ IH H|w k v c' _ IH H].
  - left. reflexivity.
  - apply processCommand_cases in H.
    destruct H as [->|[(_ & c & Hp & ->)|[Ha| ->]]].
    + destruct (addProgramme_coupon w (split " " command)) as [H1 H2].
      rewrite H1, H2. exact IH.
    + apply applyProMembershipCoupon_frame in Hp.
      destruct Hp as (_ & H2 & _ & H4 & _). cbn. rewrite H2, H4. exact IH.
    + exact (applyCoupon_states _ _ _ IH Ha).
    + exact IH.
  - apply calculate_frame in H. destruct H as (_ & H2 & _ & H4 & _).
    cbn. rewrite H2, H4. exact IH.
Qed.

(* ===================================================================== *)
(** ** Errors *)
(* ===================================================================== *)

Lemma split_nonempty (sep : ascii) (s : string) : split sep s <> [].
Proof.
  destruct s as [|c r]; cbn; [discriminate|].
  destruct (Ascii.eqb c sep); [discriminate|].
  destruct (split sep r); discriminate.
Qed.

(** A string that splits into one token is that token. *)
Lemma split_single (sep : ascii) (s t : string) :
  split sep s = [t] -> s = t.
Proof.
  revert t; induction s as [|c r IH]; intros t; cbn.
  - intros H; inversion H; reflexivity.
  - destruct (Ascii.eqb c sep).
    + intros H; inversion H as [[H1 H2]].
      exfalso. exact (split_nonempty sep r H2).
    + destruct (split sep r) as [|w ws] eqn:Hs.
      * exfalso. exact (split_nonempty sep r Hs).
      * intros H; inversion H; subst. f_equal. apply IH. reflexivity.
Qed.

Lemma View_step_throws (v : View) (command : string) (e : exn) :
  View_step v command = Throw e
  <-> view_coupon v = None /\ command = "APPLY_COUPON".
Proof.
  split.
  - unfold View_step.
    destruct (split " " command) as [|t0 ts] eqn:Hs; [discriminate|].
    destruct (String.eqb t0 "ADD_PROGRAMME").
    { destruct (Nat.eqb (List.length (t0 :: ts)) 3); discriminate. }
    destruct (String.eqb t0 "PRO_MEMBERSHIP"); [discriminate|].
    destruct (String.eqb t0 "APPLY_COUPON") eqn:E; [|discriminate].
    destruct (view_coupon v) as [label|]; cbn [is_null andb]; [discriminate|].
    destruct (ge (view_count v) MIN_DISCOUNTABLE_QUANTITY
              && Nat.eqb (List.length (t0 :: ts)) 2); [discriminate|].
    destruct ts as [|t1 ts]; cbn [nth_error].
    + intros _. split; [reflexivity|].
      apply String.eqb_eq in E. subst t0. exact (split_single _ _ _ Hs).
    + destruct (truthy (discountStrategies_lookup (toLowerCase t1)));
        discriminate.
  - intros [Hl ->]. unfold View_step. cbn [split Ascii.eqb Bool.eqb].
    rewrite Hl. cbn. rewrite andb_false_r. destruct e. reflexivity.
Qed.

(** The one command that can fail: in a state of a run, a command throws
    exactly when it is the bare line APPLY_COUPON and no coupon has been
    applied yet. *)
Lemma processCommand_throws (w : Process) (command : string) :
  reachable w ->
  processCommand w command = Throw TypeError
  <-> appliedCoupon (cart w) = None /\ command = "APPLY_COUPON".
Proof.
  intros Hw. destruct (reachable_ok w Hw) as [Hok _].
  rewrite <- (View_step_throws (observe w) command TypeError).
  rewrite <- (processCommand_observe w command Hok).
  destruct (processCommand w command) as [w'|[]]; cbn; split;
    congruence.
Qed.

Lemma run_app (l1 l2 : list string) (w : Process) :
  run w (l1 ++ l2) = (w1 <- run w l1 ;; run w1 l2).
Proof.
  revert w; induction l1 as [|line l1 IH]; intros w; cbn [run app];
    [reflexivity|].
  destruct (processCommand w line) as [w1|e]; [|reflexivity].
  cbn [bind]. apply IH.
Qed.

(** A run fails exactly when it comes to a bare APPLY_COUPON line with no
    coupon applied by the lines before it. *)
Theorem run_throws (w : Process) (lines : list string) :
  reachable w ->
  run w lines = Throw TypeError
  <-> exists before after w1,
        lines = (before ++ "APPLY_COUPON" :: after)%list
        /\ run w before = Normal w1
        /\ appliedCoupon (cart w1) = None.
Proof.
  intros Hw. split.
  - revert w Hw; induction lines as [|line lines IH]; intros w Hw;
      cbn [run]; [discriminate|].
    destruct (processCommand w line) as [w1|[]] eqn:Hp; cbn [bind].
    + intros Hr.
      destruct (IH w1 (reachable_command _ _ _ Hw Hp) Hr)
        as (before & after & w2 & -> & Hb & Hn).
      exists (line :: before), after, w2. cbn [run app].
      rewrite Hp. cbn [bind]. auto.
    + intros _. apply (processCommand_throws w line Hw) in Hp.
      destruct Hp as [Hn ->].
      exists [], lines, w. auto.
  - intros (before & after & w1 & -> & Hb & Hn).
    rewrite run_app, Hb. cbn [bind run].
    assert (Hw1 : reachable w1) by exact (run_reachable _ _ _ Hw Hb).
    rewrite (proj2 (processCommand_throws w1 "APPLY_COUPON" Hw1)
               (conj Hn eq_refl)).
    reflexivity.
Qed.

(** Printing fails exactly when the selected strategy is an object that is
    no strategy and fewer than four discountable units keep the bulk
    discount from replacing it. *)
Theorem printBill_throws (w : Process) :
  reachable w ->
  printBill (cart w) = Throw TypeError
  <-> discountStrategy (cart w) = Inherited
      /\ ge (totalDiscountableQuantity (cart w)) MIN_DISCOUNTABLE_QUANTITY
         = false.
Proof.
  intros Hw. destruct (reachable_ok w Hw) as [Hok _].
  rewrite (printBill_bill _ Hok).
  unfold Spec.bill, Spec.computeTotal, Spec.computeDiscount.
  rewrite <- totalDiscountableQuantity_spec.
  change (Spec.discountPolicy (invoice_of (cart w)))
    with (discountStrategy (cart w)).
  change MIN_DISCOUNTABLE_QUANTITY with 4%float.
  destruct Hok as (Hd & _).
  destruct (ge (totalDiscountableQuantity (cart w)) 4%float).
  - cbn. split; [discriminate|]. intros [_ H]; discriminate.
  - destruct (discountStrategy (cart w)); cbn; split;
      try discriminate; try contradiction; auto.
    + intros [H _]; discriminate.
Qed.

(* ===================================================================== *)
(** ** The input file *)
(* ===================================================================== *)

Lemma remove_char_idempotent (x : ascii) (s : string) :
  remove_char x (remove_char x s) = remove_char x s.
Proof.
  induction s as [|c r IH]; cbn; [reflexivity|].
  destruct (Ascii.eqb c x) eqn:E; [exact IH|].
  cbn. rewrite E. f_equal. exact IH.
Qed.

(** Removing a character that is not the separator before or after
    splitting comes to the same. *)
Lemma split_remove_char (sep x : ascii) (s : string) :
  Ascii.eqb sep x = false ->
  map (remove_char x) (split sep s) = split sep (remove_char x s).
Proof.
  intros Hne. induction s as [|c r IH]; [reflexivity|].
  cbn [split remove_char].
  destruct (Ascii.eqb c sep) eqn:Ec.
  - apply Ascii.eqb_eq in Ec. subst c. rewrite Hne.
    cbn [split map remove_char]. rewrite Ascii.eqb_refl. f_equal. exact IH.
  - destruct (Ascii.eqb c x) eqn:Ex.
    + rewrite <- IH. destruct (split sep r) as [|t ts] eqn:Hs.
      * exfalso. exact (split_nonempty sep r Hs).
      * cbn [map remove_char]. rewrite Ex. reflexivity.
    + cbn [split]. rewrite Ec, <- IH.
      destruct (split sep r) as [|t ts] eqn:Hs.
      * exfalso. exact (split_nonempty sep r Hs).
      * cbn [map remove_char]. rewrite Ex. reflexivity.
Qed.

(** Carriage returns in the input file do not count, wherever they stand:
    the file without them gives the same bill, or the same error. *)
Theorem main_ignores_carriage_returns (data : string) :
  main (remove_char "013" data) = main data.
Proof.
  unfold main.
  rewrite <- (split_remove_char "010" "013" data eq_refl).
  rewrite map_map.
  rewrite (map_ext _ _ (remove_char_idempotent "013")).
  reflexivity.
Qed.

(* ===================================================================== *)
(** ** The two counts *)
(* ===================================================================== *)

Lemma filter_all {A : Type} (f : A -> bool) (l : list A) :
  (forall x, In x l -> f x = true) -> filter f l = l.
Proof.
  induction l as [|a l IH]; intros H; cbn; [reflexivity|].
  rewrite (H a (or_introl eq_refl)). f_equal.
  apply IH. intros x Hx. apply H. right. exact Hx.
Qed.

(** When every programme added has one of the three known types, the
    counter behind the B4G1 label and the quantity behind the bulk discount
    are the same number. *)
Theorem count_is_discountable_quantity (w : Process) :
  reachable w ->
  (forall p, In p (programmes (cart w)) -> type p <> None) ->
  count w = totalDiscountableQuantity (cart w).
Proof.
  intros Hw Hknown. destruct (reachable_ok w Hw) as [_ Hn].
  rewrite Hn, totalDiscountableQuantity_spec.
  unfold Spec.discountableQuantity, invoice_of. cbn [Spec.items].
  rewrite filter_all; [reflexivity|].
  intros p Hp. specialize (Hknown p Hp). unfold Spec.discountable.
  destruct (type p); [reflexivity|contradiction].
Qed.

(* ===================================================================== *)
(** ** What printing leaves in the cart *)
(* ===================================================================== *)

Lemma calculateProMembershipDiscount_stores (c : GeekdemyCart) v c' :
  calculateProMembershipDiscount c = Normal (v, c') ->
  c' = set_proMembershipDiscount c v.
Proof.
  unfold calculateProMembershipDiscount.
  destruct (gt (proMembershipFee c) 0%float).
  - destruct (proMembershipStrategy c); cbn; intros H; inversion H;
      reflexivity.
  - intros H; inversion H; subst. destruct c'; reflexivity.
Qed.

Lemma calculateEnrollmentFee_stores (c : GeekdemyCart) v c' :
  calculateEnrollmentFee c = Normal (v, c') -> c' = set_enrollmentFee c v.
Proof.
  unfold calculateEnrollmentFee.
  destruct (enrollmentStrategy c); cbn; intros H; inversion H; reflexivity.
Qed.

Lemma printBill_returned (c : GeekdemyCart) (b : Bill) (c' : GeekdemyCart) :
  printBill c = Normal (b, c') ->
  SUB_TOTAL b = Spec.computeSubtotal (invoice_of c)
  /\ TOTAL b = (SUB_TOTAL b + ENROLLMENT_FEE b + PRO_MEMBERSHIP_FEE_line b
                - TOTAL_PRO_DISCOUNT b - snd (COUPON_DISCOUNT b))%float
  /\ PRO_MEMBERSHIP_FEE_line b = proMembershipFee c
  /\ fst (COUPON_DISCOUNT b) = appliedCoupon c
  /\ c' = stored c b.
Proof.
  unfold printBill. rewrite calculateSubtotal_eq. cbn [bind snd fst].
  set (c1 := set_subtotal c _).
  destruct (calculateProMembershipDiscount c1) as [[v2 c2]|e] eqn:H2;
    cbn [bind snd fst]; [|discriminate].
  apply calculateProMembershipDiscount_stores in H2. subst c2.
  set (c2 := set_proMembershipDiscount c1 v2).
  destruct (calculateEnrollmentFee c2) as [[v3 c3]|e] eqn:H3;
    cbn [bind snd fst]; [|discriminate].
  apply calculateEnrollmentFee_stores in H3. subst c3.
  set (c3 := set_enrollmentFee c2 v3).
  rewrite calculateDiscount_rule.
  destruct (discount_rule c3) as [d|e] eqn:Hd; cbn [bind snd fst];
    [|discriminate].
  rewrite calculateTotalFare_rule.
  change (discount_rule (set_discount c3 d)) with (discount_rule c3).
  rewrite Hd. cbn [bind snd fst].
  intros H; inversion H; subst; clear H. cbn.
  conj_split; reflexivity.
Qed.

(** Whatever cart it is called on, a bill that [printBill] returns adds up,
    its total being the other amounts printed, combined; and the call
    changes nothing in the cart but the four stored amounts, which become
    the amounts printed. *)
Theorem printBill_adds_up (c : GeekdemyCart) (b : Bill) (c' : GeekdemyCart) :
  printBill c = Normal (b, c') ->
  TOTAL b = (SUB_TOTAL b + ENROLLMENT_FEE b + PRO_MEMBERSHIP_FEE_line b
             - TOTAL_PRO_DISCOUNT b - snd (COUPON_DISCOUNT b))%float
  /\ PRO_MEMBERSHIP_FEE_line b = proMembershipFee c
  /\ fst (COUPON_DISCOUNT b) = appliedCoupon c
  /\ programmes c' = programmes c
  /\ discountStrategy c' = discountStrategy c
  /\ c' = stored c b.
Proof.
  intros H. destruct (printBill_returned c b c' H) as (_ & H2 & H3 & H4 & H5).
  subst c'. conj_split; auto.
Qed.

(* ===================================================================== *)
(** ** Floating point *)
(* ===================================================================== *)

Lemma iter_pos_invariant {A : Type} (P : A -> Prop) (f : A -> A) :
  (forall x, P x -> P (f x)) -> forall n x, P x -> P (iter_pos f n x).
Proof.
  intros Hf. induction n as [n IH|n IH|]; intros x Hx; cbn; auto.
Qed.

Lemma shr_1_nonneg (mrs : shr_record) :
  (0 <= shr_m mrs)%Z -> (0 <= shr_m (shr_1 mrs))%Z.
Proof.
  destruct mrs as [m r s]. cbn.
  destruct m as [|p|p]; cbn; intros H; try lia; destruct p; cbn; lia.
Qed.

Lemma shr_fexp_nonneg (m e : Z) (l : location) :
  (0 <= m)%Z -> (0 <= shr_m (fst (shr_fexp prec emax m e l)))%Z.
Proof.
  intros Hm. unfold shr_fexp, shr.
  assert (H0 : (0 <= shr_m (shr_record_of_loc m l))%Z).
  { destruct l as [|[]]; exact Hm. }
  destruct (fexp prec emax (Zdigits2 m + e) - e)%Z as [|p|p]; cbn [fst];
    try exact H0.
  apply (iter_pos_invariant (fun r => (0 <= shr_m r)%Z)); [|exact H0].
  exact shr_1_nonneg.
Qed.

Lemma round_nearest_even_nonneg (m : Z) (l : location) :
  (0 <= m)%Z -> (0 <= round_nearest_even m l)%Z.
Proof.
  intros Hm. destruct l as [|[]]; cbn; try lia.
  destruct (Z.even m); lia.
Qed.

(** Rounding a positive product gives zero, a positive number or
    [Infinity]. *)
Lemma binary_round_aux_nonneg (m : positive) (e : Z) :
  SFleb (S754_zero false)
    (binary_round_aux prec emax false (Zpos m) e loc_Exact) = true.
Proof.
  unfold binary_round_aux.
  pose proof (shr_fexp_nonneg (Zpos m) e loc_Exact ltac:(lia)) as H1.
  destruct (shr_fexp prec emax (Zpos m) e loc_Exact) as [mrs' e'].
  cbn [fst] in H1.
  pose proof (shr_fexp_nonneg _ e' loc_Exact
                (round_nearest_even_nonneg _ (loc_of_shr_record mrs') H1))
    as H2.
  destruct (shr_fexp prec emax
              (round_nearest_even (shr_m mrs') (loc_of_shr_record mrs')) e'
              loc_Exact) as [mrs'' e''].
  cbn [fst] in H2.
  destruct (shr_m mrs'') as [|p|p]; [reflexivity| |lia].
  destruct (e'' <=? emax - prec)%Z; reflexivity.
Qed.

Lemma mul_nonneg (x r : number) :
  (0 <=? x)%float = true -> (0 <? r)%float = true -> is_infinity r = false ->
  (0 <=? x * r)%float = true.
Proof.
  rewrite !leb_spec, ltb_spec, mul_spec.
  unfold is_infinity. rewrite eqb_spec, abs_spec.
  change (Prim2SF 0) with (S754_zero false).
  change (Prim2SF infinity) with (S754_infinity false).
  unfold SF64mul.
  destruct (Prim2SF x) as [sx|sx| |sx mx ex];
    destruct (Prim2SF r) as [sr|sr| |sr mr er];
    try destruct sx; try destruct sr; cbn; try discriminate; try reflexivity.
  intros _ _ _. apply binary_round_aux_nonneg.
Qed.

(** The coupon discount is never negative and never [NaN], whatever amount
    the strategy is given: negative amounts, [NaN] and the zero strategy
    give 0, and a percentage of an amount that is not negative is not
    negative. *)
Theorem discount_never_negative (s : DiscountStrategy)
  (beforeDiscount : number) :
  (0 <=? DiscountStrategy_calculateDiscount s beforeDiscount)%float = true.
Proof.
  destruct s; cbn [DiscountStrategy_calculateDiscount]; [reflexivity| |];
    unfold ge;
    destruct (0 <=? beforeDiscount)%float eqn:H; try reflexivity;
    apply mul_nonneg; auto.
Qed.

Lemma is_nan_spec (x : number) : is_nan x = true <-> Prim2SF x = S754_nan.
Proof.
  unfold is_nan. rewrite eqb_spec. unfold SFeqb, SFcompare.
  destruct (Prim2SF x) as [s|s| |s m e]; cbn.
  - split; discriminate.
  - destruct s; split; discriminate.
  - split; reflexivity.
  - rewrite Z.compare_refl, Pos.compare_cont_refl.
    destruct s; split; discriminate.
Qed.

Lemma add_nan_l (x y : number) : is_nan x = true -> is_nan (x + y) = true.
Proof.
  rewrite !is_nan_spec, add_spec. intros ->. reflexivity.
Qed.

Lemma add_nan_r (x y : number) : is_nan y = true -> is_nan (x + y) = true.
Proof.
  rewrite !is_nan_spec, add_spec. intros ->.
  destruct (Prim2SF x); reflexivity.
Qed.

Lemma sub_nan_l (x y : number) : is_nan x = true -> is_nan (x - y) = true.
Proof.
  rewrite !is_nan_spec, sub_spec. intros ->. reflexivity.
Qed.

Lemma mul_nan_r (x y : number) : is_nan y = true -> is_nan (x * y) = true.
Proof.
  rewrite !is_nan_spec, mul_spec. intros ->.
  destruct (Prim2SF x); reflexivity.
Qed.

Lemma ltb_nan (x y : number) : is_nan x = true -> (x <? y)%float = false.
Proof. rewrite is_nan_spec, ltb_spec. intros ->. reflexivity. Qed.

Lemma sum_nan_acc (l : list number) (acc : number) :
  is_nan acc = true -> is_nan (fold_left add l acc) = true.
Proof.
  revert acc; induction l as [|x l IH]; intros acc H; cbn; [exact H|].
  apply IH, add_nan_l, H.
Qed.

(** A sum with a [NaN] term is [NaN]. *)
Lemma sum_nan (l : list number) (acc x : number) :
  In x l -> is_nan x = true -> is_nan (fold_left add l acc) = true.
Proof.
  revert acc; induction l as [|y l IH]; intros acc Hin Hx;
    [contradiction|].
  destruct Hin as [->|Hin]; cbn.
  - apply sum_nan_acc, add_nan_r, Hx.
  - apply IH; assumption.
Qed.

Lemma sub_zero (x : number) : (x - 0)%float = x.
Proof.
  rewrite <- (SF2Prim_Prim2SF (x - 0)), sub_spec.
  change (Prim2SF 0) with (S754_zero false).
  rewrite <- (SF2Prim_Prim2SF x) at 2. f_equal.
  destruct (Prim2SF x) as [[]|[]| |s m e]; reflexivity.
Qed.

(** A quantity that is not a number spoils the bill: once a programme with
    a [NaN] quantity is in the cart, whatever its type, the counter is
    [NaN], and the bill, if it prints, shows [NaN] for the subtotal and for
    the total, and no enrollment fee. *)
Theorem nan_quantity_spoils_bill (w : Process) (p : Programme) :
  reachable w ->
  In p (programmes (cart w)) ->
  is_nan (quantity p) = true ->
  is_nan (count w) = true
  /\ forall b c',
       printBill (cart w) = Normal (b, c') ->
       is_nan (SUB_TOTAL b) = true
       /\ ENROLLMENT_FEE b = 0%float
       /\ is_nan (TOTAL b) = true.
Proof.
  intros Hw Hin Hnan. destruct (reachable_ok w Hw) as [Hok Hn]. split.
  - rewrite Hn. apply (sum_nan _ _ (quantity p)); [|exact Hnan].
    apply in_map. exact Hin.
  - intros b c' Hp.
    destruct (printBill_returned _ _ _ Hp) as (H1 & H2 & _).
    destruct (printBill_lines _ _ _ Hok Hp) as [Hb _].
    apply bill_lines in Hb. destruct Hb as (_ & _ & _ & H4 & _).
    assert (Hs : is_nan (SUB_TOTAL b) = true).
    { rewrite H1. apply (sum_nan _ _ (Spec.cost p)).
      - apply (in_map Spec.cost). exact Hin.
      - apply mul_nan_r, Hnan. }
    conj_split; [exact Hs| |].
    + rewrite H4. unfold Spec.computeEnrollmentFee, Spec.EnrollmentFeePolicy_fee.
      rewrite <- H1, (ltb_nan _ _ Hs). reflexivity.
    + rewrite H2. repeat apply sub_nan_l. repeat apply add_nan_l. exact Hs.
Qed.

(* ===================================================================== *)
(** ** Label, strategy and the bill *)
(* ===================================================================== *)

(** In every state of a run the coupon label tells the selected strategy and
    the other way round: no label or B4G1 with the zero discount, DEAL_G20
    and DEAL_G5 with their percentage, and CONSTRUCTOR or __PROTO__ with an
    object that is no strategy; no other label and no other strategy
    occurs. *)
Theorem coupon_label_and_strategy (w : Process) :
  reachable w ->
  let label := appliedCoupon (cart w) in
  let strategy := discountStrategy (cart w) in
  (label = None \/ label = Some "B4G1" <-> strategy = Obj B4G1Discount)
  /\ (label = Some "DEAL_G20" <-> strategy = Obj DealG20Discount)
  /\ (label = Some "DEAL_G5" <-> strategy = Obj DealG5Discount)
  /\ (label = Some "CONSTRUCTOR" \/ label = Some "__PROTO__"
      <-> strategy = Inherited)
  /\ In (label, strategy) coupon_states.
Proof.
  intros Hw label strategy.
  pose proof (reachable_coupon_states w Hw) as Hin.
  fold label strategy in Hin. split; [|split; [|split; [|split]]];
    try exact Hin;
    unfold coupon_states in Hin; simpl in Hin;
    repeat (destruct Hin as [Hin|Hin]; [inversion Hin; clear Hin|]);
    try contradiction;
    split; intros H; try discriminate H; auto;
    destruct H as [H|H]; discriminate H.
Qed.

(** With no coupon label, or with the B4G1 label, and fewer than four
    discountable units, the bill prints with a discount of 0 and a total
    that is subtotal + enrollment fee + membership fee - membership
    discount: the B4G1 label by itself earns nothing. *)
Theorem bill_without_discount (w : Process) :
  reachable w ->
  appliedCoupon (cart w) = None \/ appliedCoupon (cart w) = Some "B4G1" ->
  ge (totalDiscountableQuantity (cart w)) MIN_DISCOUNTABLE_QUANTITY = false ->
  exists b c',
    printBill (cart w) = Normal (b, c')
    /\ snd (COUPON_DISCOUNT b) = 0%float
    /\ TOTAL b = (SUB_TOTAL b + ENROLLMENT_FEE b + PRO_MEMBERSHIP_FEE_line b
                  - TOTAL_PRO_DISCOUNT b)%float.
Proof.
  intros Hw Hl Hq. destruct (reachable_ok w Hw) as [Hok _].
  assert (Hs : discountStrategy (cart w) = Obj B4G1Discount).
  { pose proof (reachable_coupon_states w Hw) as Hin.
    unfold coupon_states in Hin. simpl in Hin.
    repeat (destruct Hin as [Hin|Hin]; [inversion Hin as [[H1 H2]]|]);
      try contradiction; try reflexivity;
      destruct Hl as [Hl|Hl]; rewrite Hl in *; discriminate. }
  rewrite (printBill_bill _ Hok).
  unfold Spec.bill, Spec.computeTotal, Spec.computeDiscount.
  rewrite <- totalDiscountableQuantity_spec.
  change (Spec.discountPolicy (invoice_of (cart w)))
    with (discountStrategy (cart w)).
  change MIN_DISCOUNTABLE_QUANTITY with 4%float in Hq.
  rewrite Hq, Hs. cbn.
  eexists _, _. conj_split; [reflexivity|reflexivity|].
  apply sub_zero.
Qed.

(* ===================================================================== *)
(** ** Input that cannot fail *)
(* ===================================================================== *)

Lemma View_step_safe (v v' : View) (command : string) :
  safe command = true ->
  view_strategy v <> Inherited ->
  View_step v command = Normal v' ->
  view_strategy v' <> Inherited.
Proof.
  unfold safe, View_step.
  destruct (split " " command) as [|t0 ts].
  { intros _ Hv H; inversion H; subst; exact Hv. }
  destruct (String.eqb t0 "ADD_PROGRAMME").
  { destruct (Nat.eqb (List.length (t0 :: ts)) 3);
      intros _ Hv H; inversion H; subst; exact Hv. }
  destruct (String.eqb t0 "PRO_MEMBERSHIP").
  { intros _ Hv H; inversion H; subst; exact Hv. }
  destruct (String.eqb t0 "APPLY_COUPON");
    [|intros _ Hv H; inversion H; subst; exact Hv].
  destruct ts as [|t1 ts]; [discriminate|].
  intros Hsafe Hv.
  destruct (is_null (view_coupon v)
            && ge (view_count v) MIN_DISCOUNTABLE_QUANTITY
            && Nat.eqb (List.length (t0 :: t1 :: ts)) 2).
  { intros H; inversion H; subst; exact Hv. }
  destruct (is_null (view_coupon v));
    [|intros H; inversion H; subst; exact Hv].
  cbn [nth_error]. rewrite (lookup_lowered t1).
  destruct (String.eqb (toLowerCase t1) "deal_g20").
  { intros H; inversion H; subst; cbn; discriminate. }
  destruct (String.eqb (toLowerCase t1) "deal_g5").
  { intros H; inversion H; subst; cbn; discriminate. }
  destruct (String.eqb (toLowerCase t1) "constructor"); [discriminate|].
  destruct (String.eqb (toLowerCase t1) "__proto__"); [discriminate|].
  intros H; inversion H; subst; exact Hv.
Qed.

Lemma processCommand_safe (w : Process) (command : string) :
  reachable w ->
  safe command = true ->
  discountStrategy (cart w) <> Inherited ->
  exists w', processCommand w command = Normal w'
             /\ discountStrategy (cart w') <> Inherited.
Proof.
  intros Hw Hsafe Hs. destruct (reachable_ok w Hw) as [Hok _].
  pose proof (processCommand_observe w command Hok) as Hobs.
  destruct (processCommand w command) as [w'|[]] eqn:Hp.
  - exists w'. split; [reflexivity|].
    cbn in Hobs. symmetry in Hobs.
    exact (View_step_safe (observe w) (observe w') command Hsafe Hs Hobs).
  - apply (processCommand_throws w command Hw) in Hp.
    destruct Hp as [_ ->]. discriminate Hsafe.
Qed.

Lemma run_safe (lines : list string) (w : Process) :
  reachable w ->
  discountStrategy (cart w) <> Inherited ->
  forallb safe lines = true ->
  exists w', run w lines = Normal w'
             /\ reachable w'
             /\ discountStrategy (cart w') <> Inherited.
Proof.
  revert w; induction lines as [|line lines IH]; intros w Hw Hs Hall.
  - exists w. auto.
  - cbn [forallb] in Hall. apply andb_true_iff in Hall.
    destruct Hall as [Hl Hall].
    destruct (processCommand_safe w line Hw Hl Hs) as (w1 & Hp & Hs1).
    destruct (IH w1 (reachable_command _ _ _ Hw Hp) Hs1 Hall)
      as (w' & Hr & Hw' & Hs').
    exists w'. cbn [run]. rewrite Hp. cbn [bind]. auto.
Qed.

Lemma printBill_returns (c : GeekdemyCart) :
  cart_ok c ->
  discountStrategy c <> Inherited ->
  exists b c', printBill c = Normal (b, c').
Proof.
  intros Hok Hs. rewrite (printBill_bill c Hok).
  unfold Spec.bill, Spec.computeTotal, Spec.computeDiscount.
  change (Spec.discountPolicy (invoice_of c)) with (discountStrategy c).
  destruct Hok as (Hn & _).
  destruct (discountStrategy c) as [|s|]; try contradiction.
  destruct (ge (Spec.discountableQuantity (invoice_of c)) 4%float);
    cbn; eauto.
Qed.

(** Input that cannot fail: if no line of the file is an APPLY_COUPON
    without a token, and no APPLY_COUPON token is [constructor] or
    [__proto__] up to case, then [main] prints a bill, whatever else the
    lines hold. *)
Theorem safe_input_prints (data : string) :
  forallb safe (map (remove_char "013") (split "010" data)) = true ->
  exists b, main data = Normal b.
Proof.
  intros Hall. unfold main.
  destruct (run_safe _ initial reachable_initial ltac:(discriminate) Hall)
    as (w' & Hr & Hw' & Hs').
  rewrite Hr. cbn [bind].
  destruct (printBill_returns (cart w') (proj1 (reachable_ok _ Hw')) Hs')
    as (b & c' & Hp).
  rewrite Hp. exists b. reflexivity.
Qed.

(* ===================================================================== *)
(** ** The statements above on concrete runs *)
(* ===================================================================== *)

Lemma two_degrees_reachable : reachable two_degrees.
Proof.
  exact (reachable_command initial "ADD_PROGRAMME DEGREE 2" two_degrees
           reachable_initial eq_refl).
Qed.

Lemma bill_after_same_view_witness :
  bill_after two_degrees ["APPLY_COUPON deal_g5"]
  = bill_after two_degrees_subtotalled ["APPLY_COUPON deal_g5"].
Proof.
  exact (bill_after_same_view two_degrees two_degrees_subtotalled
           ["APPLY_COUPON deal_g5"]
           two_degrees_reachable
           (reachable_calculate two_degrees CalculateSubtotal 10000%float
              (set_subtotal (cart two_degrees) 10000%float)
              two_degrees_reachable eq_refl)
           eq_refl).
Defined.

Lemma PRO_MEMBERSHIP_anywhere_witness :
  bill_after initial ["ADD_PROGRAMME DEGREE 1"; "PRO_MEMBERSHIP"]
  = bill_after initial ["PRO_MEMBERSHIP"; "ADD_PROGRAMME DEGREE 1"].
Proof.
  exact (PRO_MEMBERSHIP_anywhere initial "PRO_MEMBERSHIP"
           ["ADD_PROGRAMME DEGREE 1"] [] reachable_initial eq_refl).
Defined.

Lemma run_programmes_witness :
  programmes (cart two_degrees)
  = [new_Programme (Some DEGREE) 2%float]
  /\ count two_degrees = 2%float.
Proof.
  exact (run_programmes
           ["PRINT_BILL"; "ADD_PROGRAMME DEGREE 2"; "ADD_PROGRAMME DEGREE"]
           initial two_degrees eq_refl).
Defined.

Lemma coupon_label_and_strategy_witness :
  appliedCoupon (cart diploma_with_deal_g20) = Some "DEAL_G20"
  <-> discountStrategy (cart diploma_with_deal_g20) = Obj DealG20Discount.
Proof.
  exact (proj1 (proj2
    (coupon_label_and_strategy diploma_with_deal_g20
       (run_reachable ["ADD_PROGRAMME DIPLOMA 2"; "APPLY_COUPON deal_g20"]
          initial diploma_with_deal_g20 reachable_initial eq_refl)))).
Defined.

Lemma run_throws_witness :
  run initial ["ADD_PROGRAMME DEGREE 4"; "APPLY_COUPON"; "PRO_MEMBERSHIP"]
  = Throw TypeError.
Proof.
  apply (run_throws initial
           ["ADD_PROGRAMME DEGREE 4"; "APPLY_COUPON"; "PRO_MEMBERSHIP"]
           reachable_initial).
  exists ["ADD_PROGRAMME DEGREE 4"], ["PRO_MEMBERSHIP"],
    (addProgramme initial ["ADD_PROGRAMME"; "DEGREE"; "4"]).
  repeat split.
Defined.

Lemma printBill_throws_witness :
  run initial ["APPLY_COUPON Constructor"] = Normal constructor_coupon
  /\ printBill (cart constructor_coupon) = Throw TypeError.
Proof.
  split; [reflexivity|].
  apply (printBill_throws constructor_coupon
           (run_reachable ["APPLY_COUPON Constructor"] initial
              constructor_coupon reachable_initial eq_refl)).
  split; reflexivity.
Defined.

Lemma count_is_discountable_quantity_witness :
  count two_degrees = totalDiscountableQuantity (cart two_degrees).
Proof.
  apply (count_is_discountable_quantity two_degrees two_degrees_reachable).
  intros p [<-|[]]. discriminate.
Defined.

Lemma printBill_adds_up_witness :
  TOTAL (mkBill 10000 0 0 0 (None, 0%float) 10000)%float
  = (10000 + 0 + 0 - 0 - 0)%float.
Proof.
  exact (proj1 (printBill_adds_up (cart two_degrees)
                  (mkBill 10000 0 0 0 (None, 0%float) 10000)%float
                  (stored (cart two_degrees)
                     (mkBill 10000 0 0 0 (None, 0%float) 10000)%float)
                  eq_refl)).
Defined.

Lemma nan_quantity_spoils_bill_witness :
  run initial ["ADD_PROGRAMME DEGREE abc"] = Normal degree_abc
  /\ is_nan (count degree_abc) = true.
Proof.
  split; [reflexivity|].
  exact (proj1 (nan_quantity_spoils_bill degree_abc
                  (new_Programme (Some DEGREE) (parseInt "abc"))
                  (run_reachable ["ADD_PROGRAMME DEGREE abc"] initial
                     degree_abc reachable_initial eq_refl)
                  (or_introl eq_refl) eq_refl)).
Defined.

Lemma bill_without_discount_witness :
  exists b c',
    printBill (cart four_unknown) = Normal (b, c')
    /\ snd (COUPON_DISCOUNT b) = 0%float
    /\ TOTAL b = (SUB_TOTAL b + ENROLLMENT_FEE b + PRO_MEMBERSHIP_FEE_line b
                  - TOTAL_PRO_DISCOUNT b)%float.
Proof.
  exact (bill_without_discount four_unknown
           (reachable_command initial "ADD_PROGRAMME WORKSHOP 4" four_unknown
              reachable_initial eq_refl)
           (or_introl eq_refl) eq_refl).
Defined.

Lemma safe_input_prints_witness :
  exists b, main "ADD_PROGRAMME DEGREE 1
APPLY_COUPON DEAL_G5
PRINT_BILL" = Normal b.
Proof.
  exact (safe_input_prints "ADD_PROGRAMME DEGREE 1
APPLY_COUPON DEAL_G5
PRINT_BILL" eq_refl).
Defined.
